(** * Sensor partitioning: a shallow embedding of
      [st2reactor/container/partitioner.py]

    The module decides which sensors a sensor-container node runs.  The
    embedding keeps the shape of the Python source: the partitioner classes
    become constructors of one inductive type with method dispatch by
    pattern matching, exceptions become an error monad, and the top-level
    [get_sensors], which copies and then mutates a configuration dict,
    runs in a state-and-error monad over a heap of dict objects. *)

From Stdlib Require Import Ascii String.
From stdpp Require Import base option list gmap strings fin_maps fin_sets.

(** ** Python string built-ins used by the module *)

Module Py.

(** Strings are byte strings, Python's [str]; the methods below are the
    ones of that type.

    [str.strip()] without argument removes the characters of
    [string.whitespace]: space, tab, newline, vertical tab, form feed and
    carriage return. *)
Definition isspace (c : ascii) : bool :=
  match c with
  | " " | "009" | "010" | "011" | "012" | "013" => true
  | _ => false
  end%char.

Definition isupper (c : ascii) : bool :=
  let n := N_of_ascii c in (65 <=? n)%N && (n <=? 90)%N.

(** [str.lower()] on a byte string: only the letters A-Z change. *)
Definition lower_char (c : ascii) : ascii :=
  if isupper c then ascii_of_N (N_of_ascii c + 32) else c.

Fixpoint lower (s : string) : string :=
  match s with
  | EmptyString => EmptyString
  | String c s' => String (lower_char c) (lower s')
  end.

Fixpoint lstrip (s : string) : string :=
  match s with
  | EmptyString => EmptyString
  | String c s' => if isspace c then lstrip s' else s
  end.

Fixpoint rstrip (s : string) : string :=
  match s with
  | EmptyString => EmptyString
  | String c s' =>
      match rstrip s' with
      | EmptyString => if isspace c then EmptyString else String c EmptyString
      | r => String c r
      end
  end.

Definition strip (s : string) : string := rstrip (lstrip s).

(** [s.split(sep)] for a one-character separator.  The result is never the
    empty list: splitting the empty string gives one empty piece. *)
Fixpoint split (sep : ascii) (s : string) : list string :=
  match s with
  | EmptyString => [EmptyString]
  | String c s' =>
      if Ascii.eqb c sep then EmptyString :: split sep s'
      else match split sep s' with
           | [] => [String c EmptyString]
           | p :: ps => String c p :: ps
           end
  end.

(** [sep.join(pieces)], the inverse of [split]. *)
Fixpoint join (sep : ascii) (pieces : list string) : string :=
  match pieces with
  | [] => EmptyString
  | [p] => p
  | p :: ps => p +:+ String sep (join sep ps)
  end.

(** Truth value of a [str]-or-[None] expression in a condition. *)
Definition truthy (v : option string) : bool :=
  match v with
  | Some (String _ _) => true
  | _ => false
  end.

(** ['{}.sensor_partition'.format(x)] and the like: the argument is put in
    place of the one replacement field. *)
Definition format1 (pre post x : string) : string := pre +:+ x +:+ post.

(** Iterating over a [str] yields its one-character substrings. *)
Fixpoint chars (s : string) : list string :=
  match s with
  | EmptyString => []
  | String c s' => String c EmptyString :: chars s'
  end.

(** Predicates used to describe what [split] and [strip] return. *)
Fixpoint contains (c : ascii) (s : string) : bool :=
  match s with
  | EmptyString => false
  | String a s' => Ascii.eqb a c || contains c s'
  end.

Fixpoint all_space (s : string) : bool :=
  match s with
  | EmptyString => true
  | String a s' => isspace a && all_space s'
  end.

Definition starts_space (s : string) : bool :=
  match s with
  | EmptyString => false
  | String a _ => isspace a
  end.

Fixpoint ends_space (s : string) : bool :=
  match s with
  | EmptyString => false
  | String a EmptyString => isspace a
  | String _ s' => ends_space s'
  end.

(** Two names are case variants of one another: same length, and position
    by position the same character up to the case of an ASCII letter. *)
Definition char_eq_nocase (a b : ascii) : bool :=
  Ascii.eqb a b
  || (isupper a && Ascii.eqb (ascii_of_N (N_of_ascii a + 32)) b)
  || (isupper b && Ascii.eqb (ascii_of_N (N_of_ascii b + 32)) a).

Fixpoint case_variant (s t : string) : bool :=
  match s, t with
  | EmptyString, EmptyString => true
  | String a s', String b t' => char_eq_nocase a b && case_variant s' t'
  | _, _ => false
  end.

End Py.

(** ** Exceptions *)

(** The three exceptions of [st2common.exceptions.sensors] that the module
    raises itself, and the built-in ones that its dict, attribute and
    constructor accesses can raise. *)
Inductive exn :=
  | SensorNotFoundException
  | SensorPartitionerNotSupportedException
  | SensorPartitionMapMissingException
  | KeyError
  | TypeError
  | AttributeError
  | IOError.

Global Instance exn_eq_dec : EqDecision exn.
Proof. solve_decision. Defined.

(** A call either returns a value or raises. *)
Inductive outcome (A : Type) :=
  | Ok (a : A)
  | Raise (e : exn).
Arguments Ok {A} a.
Arguments Raise {A} e.

Global Instance outcome_ret : MRet outcome := @Ok.
Global Instance outcome_bind : MBind outcome := λ A B f m,
  match m with
  | Ok a => f a
  | Raise e => Raise e
  end.

(** ** Data model *)

(** [sensor.get_reference()] gives an object whose [ref] attribute is the
    reference string of the sensor. *)
Record ResourceReference := { ref : string }.

Record SensorTypeDB := {
  reference : ResourceReference;
  enabled : bool
}.

Definition get_reference (sensor : SensorTypeDB) : ResourceReference :=
  reference sensor.

(** A key-value pair object.  Its [value] attribute may be [None]. *)
Record KeyValuePairDB := {
  name : string;
  value : option string
}.

(** What [yaml.safe_load] can give as the value of a node entry: [None]
    for an empty value, a string scalar, or a sequence of strings. *)
Inductive yaml :=
  | YNull
  | YStr (s : string)
  | YSeq (l : list string).

(** The collaborators of the module, which live in [st2common] and in the
    file system.  A lookup that can come back with [None] returns an
    [option]; one that can fail is an [outcome]. *)
Record Backend := {
  (** [SensorType.query(enabled=True)] *)
  SensorType_query_enabled : list SensorTypeDB;
  (** [SensorType.get_by_ref(ref)] *)
  SensorType_get_by_ref : string → option SensorTypeDB;
  (** [KeyValuePair.get_by_name(name)] *)
  KeyValuePair_get_by_name : string → outcome (option KeyValuePairDB);
  (** [yaml.safe_load(open(path, 'r'))], for a document that is a mapping *)
  yaml_safe_load : string → outcome (gmap string yaml)
}.

(** Modelled from the spec: the constants [DEFAULT_PARTITION_LOADER],
    [KVSTORE_PARTITION_LOADER] and [FILE_PARTITION_LOADER] of
    [st2common.constants.sensors] are imported but not part of the module;
    the registry is given as {default, key-value-store, file}. *)
Definition DEFAULT_PARTITION_LOADER : string := "default".
Definition KVSTORE_PARTITION_LOADER : string := "key-value-store".
Definition FILE_PARTITION_LOADER : string := "file".

(** ** The partitioner classes *)

(** An instance of [DefaultPartitioner] or of one of its two subclasses,
    with the attributes set by [__init__]. *)
Inductive Partitioner :=
  | DefaultPartitioner (sensor_node_name : string)
  | KVStorePartitioner (sensor_node_name : string)
  | FileBasedPartitioner (sensor_node_name partition_file : string).

Definition _get_partition_lookup_key (sensor_node_name : string) : string :=
  Py.format1 "" ".sensor_partition" sensor_node_name.

(** [sets.Set(sensor_refs)] for each kind of parsed value. *)
Definition Set_of_yaml (v : yaml) : gset string :=
  match v with
  | YNull => ∅
  | YStr s => list_to_set (Py.chars s)
  | YSeq l => list_to_set l
  end.

Module Partitioners.
Section Methods.
Context (B : Backend).

Definition _get_all_enabled_sensors : list SensorTypeDB :=
  SensorType_query_enabled B.

(** [None] is the "all sensors" answer; [Some refs] a set of references. *)
Definition get_required_sensor_refs (self : Partitioner)
    : outcome (option (gset string)) :=
  match self with
  | DefaultPartitioner _ => Ok None
  | KVStorePartitioner sensor_node_name =>
      let partition_lookup_key := _get_partition_lookup_key sensor_node_name in
      kvp ← KeyValuePair_get_by_name B partition_lookup_key;
      match kvp with
      | None => Raise AttributeError
      | Some kvp =>
          let sensor_refs_str :=
            if Py.truthy (value kvp) then default "" (value kvp) else "" in
          Ok (Some (list_to_set
                      (Py.strip <$> Py.split ","%char sensor_refs_str)))
      end
  | FileBasedPartitioner sensor_node_name partition_file =>
      partition_map ← yaml_safe_load B partition_file;
      let sensor_refs := default YNull (partition_map !! sensor_node_name) in
      match sensor_refs with
      | YNull => Raise SensorPartitionMapMissingException
      | _ => Ok (Some (Set_of_yaml sensor_refs))
      end
  end.

(** The loop of [DefaultPartitioner.get_sensors]: one [append] per
    catalog entry whose reference is in the required set. *)
Definition partition_step (sensor_refs : gset string)
    (partition_members : list SensorTypeDB) (sensor : SensorTypeDB)
    : list SensorTypeDB :=
  let sensor_ref := get_reference sensor in
  if bool_decide (ref sensor_ref ∈ sensor_refs)
  then partition_members ++ [sensor]
  else partition_members.

Definition get_sensors (self : Partitioner) : outcome (list SensorTypeDB) :=
  let all_enabled_sensors := _get_all_enabled_sensors in
  sensor_refs ← get_required_sensor_refs self;
  match sensor_refs with
  | None => Ok all_enabled_sensors
  | Some sensor_refs =>
      Ok (fold_left (partition_step sensor_refs) all_enabled_sensors [])
  end.
End Methods.
End Partitioners.

Module SingleSensorProvider.
Definition get_sensors (B : Backend) (sensor_ref : string)
    : outcome (list SensorTypeDB) :=
  match SensorType_get_by_ref B sensor_ref with
  | None => Raise SensorNotFoundException
  | Some sensor => Ok [sensor]
  end.
End SingleSensorProvider.

(** ** The registry *)

Inductive ProviderClass := ClsDefault | ClsKVStore | ClsFileBased.

Global Instance ProviderClass_eq_dec : EqDecision ProviderClass.
Proof. solve_decision. Defined.

Definition PROVIDERS : gmap string ProviderClass :=
  <[FILE_PARTITION_LOADER := ClsFileBased]>
    (<[KVSTORE_PARTITION_LOADER := ClsKVStore]>
       {[DEFAULT_PARTITION_LOADER := ClsDefault]}).

(** [provider(sensor_node_name=..., **kwargs)]: the call of a class with
    keyword arguments.  A keyword that [__init__] does not take, or a
    missing one that it needs, is a [TypeError]. *)
Definition instantiate (provider : ProviderClass) (sensor_node_name : string)
    (kwargs : gmap string string) : outcome Partitioner :=
  match provider with
  | ClsDefault =>
      if decide (kwargs = ∅) then Ok (DefaultPartitioner sensor_node_name)
      else Raise TypeError
  | ClsKVStore =>
      if decide (kwargs = ∅) then Ok (KVStorePartitioner sensor_node_name)
      else Raise TypeError
  | ClsFileBased =>
      match kwargs !! "partition_file" with
      | Some partition_file =>
          if decide (delete "partition_file" kwargs = ∅)
          then Ok (FileBasedPartitioner sensor_node_name partition_file)
          else Raise TypeError
      | None => Raise TypeError
      end
  end.

(** ** Process-wide configuration and the heap of dict objects *)

Abbreviation loc := positive.
Abbreviation dict := (gmap string string).
Abbreviation heap := (gmap loc dict).

(** [cfg.CONF]: the [partition_provider] option holds a reference to a
    dict object, so that a copy and the original can be told apart. *)
Record CONF := {
  sensor_ref : option string;
  sensor_node_name : string;
  partition_provider : loc
}.

(** Computations that read and write the heap and may raise. *)
Definition M (A : Type) : Type := heap → outcome A * heap.

Global Instance M_ret : MRet M := λ A a h, (Ok a, h).
Global Instance M_bind : MBind M := λ A B f m h,
  match m h with
  | (Ok a, h') => f a h'
  | (Raise e, h') => (Raise e, h')
  end.

Definition lift {A} (m : outcome A) : M A := λ h, (m, h).

(** [copy.copy(d)]: a new dict object with the entries of [d]. *)
Definition copy_copy (l : loc) : M loc := λ h,
  match h !! l with
  | Some d => let l' := fresh (dom h) in (Ok l', <[l' := d]> h)
  | None => (Raise AttributeError, h)
  end.

(** [d.pop(key)]: removes the entry in place and returns its value. *)
Definition dict_pop (l : loc) (key : string) : M string := λ h,
  match h !! l with
  | Some d =>
      match d !! key with
      | Some v => (Ok v, <[l := delete key d]> h)
      | None => (Raise KeyError, h)
      end
  | None => (Raise AttributeError, h)
  end.

(** The entries of a dict object, as [**d] reads them. *)
Definition dict_items (l : loc) : M dict := λ h,
  match h !! l with
  | Some d => (Ok d, h)
  | None => (Raise AttributeError, h)
  end.

(** ** The entry point *)

Definition get_sensors (B : Backend) (conf : CONF) : M (list SensorTypeDB) :=
  if Py.truthy (sensor_ref conf) then
    lift (SingleSensorProvider.get_sensors B (default "" (sensor_ref conf)))
  else
    partition_provider_config ← copy_copy (partition_provider conf);
    partition_provider ← dict_pop partition_provider_config "name";
    let sensor_node_name := sensor_node_name conf in
    let provider := PROVIDERS !! Py.lower partition_provider in
    match provider with
    | None => lift (Raise SensorPartitionerNotSupportedException)
    | Some provider =>
        kwargs ← dict_items partition_provider_config;
        self ← lift (instantiate provider sensor_node_name kwargs);
        lift (Partitioners.get_sensors B self)
    end.

(** The same entry point without the [copy.copy]: [pop] then works on the
    configuration's own dict.  Used only to show what the copy is for. *)
Definition get_sensors_in_place (B : Backend) (conf : CONF)
    : M (list SensorTypeDB) :=
  if Py.truthy (sensor_ref conf) then
    lift (SingleSensorProvider.get_sensors B (default "" (sensor_ref conf)))
  else
    let partition_provider_config := partition_provider conf in
    partition_provider ← dict_pop partition_provider_config "name";
    let sensor_node_name := sensor_node_name conf in
    let provider := PROVIDERS !! Py.lower partition_provider in
    match provider with
    | None => lift (Raise SensorPartitionerNotSupportedException)
    | Some provider =>
        kwargs ← dict_items partition_provider_config;
        self ← lift (instantiate provider sensor_node_name kwargs);
        lift (Partitioners.get_sensors B self)
    end.

(** What [get_sensors] computes once the strategy name has been popped:
    the registry lookup, the constructor call and the method call. *)
Definition dispatch (B : Backend) (sensor_node_name partition_provider : string)
    (kwargs : dict) : outcome (list SensorTypeDB) :=
  match PROVIDERS !! Py.lower partition_provider with
  | None => Raise SensorPartitionerNotSupportedException
  | Some provider =>
      self ← instantiate provider sensor_node_name kwargs;
      Partitioners.get_sensors B self
  end.

(** The keys of the registry. *)
Definition registry_names : list string :=
  [DEFAULT_PARTITION_LOADER; KVSTORE_PARTITION_LOADER; FILE_PARTITION_LOADER].

(** ** A small deployment, for examples *)

Module Sample.

Definition s1 : SensorTypeDB :=
  {| reference := {| ref := "packA.s1" |}; enabled := true |}.
Definition s2 : SensorTypeDB :=
  {| reference := {| ref := "packA.s2" |}; enabled := true |}.

(** Three nodes in the key-value store: [node1] claims one sensor, [node2]
    has an empty value, [node3] lists three references with blanks around
    the commas.  The partition file maps [node1] to one sensor, [node2] to an
    empty sequence and [node3] to an empty value; [node4] is in neither. *)
Definition kv_lookup (key : string) : outcome (option KeyValuePairDB) :=
  if decide (key = "node1.sensor_partition") then
    Ok (Some {| name := key; value := Some "packA.s1" |})
  else if decide (key = "node2.sensor_partition") then
    Ok (Some {| name := key; value := Some "" |})
  else if decide (key = "node3.sensor_partition") then
    Ok (Some {| name := key; value := Some "a, b ,c" |})
  else Ok None.

Definition partition_file : gmap string yaml :=
  <["node1" := YSeq ["packA.s2"; "packB.gone"]]>
    (<["node2" := YSeq []]> {["node3" := YNull]}).

Definition B : Backend := {|
  SensorType_query_enabled := [s1; s2];
  SensorType_get_by_ref := λ r,
    if decide (r = "packA.s1") then Some s1
    else if decide (r = "packA.s2") then Some s2 else None;
  KeyValuePair_get_by_name := kv_lookup;
  yaml_safe_load := λ path,
    if decide (path = "/etc/st2/partition.yaml") then Ok partition_file
    else Raise IOError
|}.

Definition file_config : dict :=
  <["name" := "File"]> {["partition_file" := "/etc/st2/partition.yaml"]}.
Definition bogus_config : dict := {["name" := "round-robin"]}.

Definition h : heap := <[1%positive := file_config]> {[2%positive := bogus_config]}.

Definition conf : CONF :=
  {| sensor_ref := None; sensor_node_name := "node1";
     partition_provider := 1%positive |}.
Definition conf_bogus : CONF :=
  {| sensor_ref := None; sensor_node_name := "node1";
     partition_provider := 2%positive |}.
Definition conf_single : CONF :=
  {| sensor_ref := Some "packA.s2"; sensor_node_name := "node1";
     partition_provider := 2%positive |}.

End Sample.

(** ** A second deployment, with the less usual inputs *)

Module Fleet.

Definition a : SensorTypeDB :=
  {| reference := {| ref := "a" |}; enabled := true |}.
Definition ab : SensorTypeDB :=
  {| reference := {| ref := "ab" |}; enabled := true |}.
Definition padded : SensorTypeDB :=
  {| reference := {| ref := " ab" |}; enabled := true |}.

(** The store answers for [east], [west] and [south]; for any other key
    the lookup itself raises. *)
Definition kv_lookup (key : string) : outcome (option KeyValuePairDB) :=
  if decide (key = "east.sensor_partition") then
    Ok (Some {| name := key; value := Some "a, ab" |})
  else if decide (key = "west.sensor_partition") then
    Ok (Some {| name := key; value := Some "ab" |})
  else if decide (key = "south.sensor_partition") then
    Ok (Some {| name := key; value := Some "ab,a,zz" |})
  else Raise KeyError.

(** [east] is written as a scalar instead of a sequence, [west] lists a
    reference with a leading blank. *)
Definition partition_file : gmap string yaml :=
  <["east" := YStr "ab"]> {["west" := YSeq [" ab"]]}.

Definition B : Backend := {|
  SensorType_query_enabled := [a; ab; padded];
  SensorType_get_by_ref := λ r, None;
  KeyValuePair_get_by_name := kv_lookup;
  yaml_safe_load := λ path,
    if decide (path = "fleet.yaml") then Ok partition_file else Raise IOError
|}.

Definition nameless_config : dict := {["partition_file" := "fleet.yaml"]}.
Definition default_config : dict := {["name" := "Default"]}.
Definition kvstore_config : dict := {["name" := "Key-Value-Store"]}.
Definition file_config : dict :=
  <["name" := "FILE"]> {["partition_file" := "fleet.yaml"]}.
Definition crowded_config : dict :=
  <["name" := "default"]> {["partition_file" := "fleet.yaml"]}.
Definition bare_file_config : dict := {["name" := "file"]}.

Definition h : heap :=
  <[1%positive := nameless_config]>
    (<[2%positive := default_config]>
       (<[3%positive := kvstore_config]>
          (<[4%positive := file_config]>
             (<[5%positive := crowded_config]>
                {[6%positive := bare_file_config]})))).

Definition conf_at (l : loc) : CONF :=
  {| sensor_ref := None; sensor_node_name := "west"; partition_provider := l |}.

End Fleet.

(** * Properties *)

(** ** The string built-ins *)

Section PyFacts.
Implicit Types (s t p : string) (c sep : ascii).

Lemma split_not_nil sep s : Py.split sep s ≠ [].
Proof.
  destruct s as [|c s]; simpl; [done|].
  destruct (Ascii.eqb c sep); [done|].
  by destruct (Py.split sep s).
Qed.

(** Joining the pieces with the separator gives the string back. *)
Lemma join_split sep s : Py.join sep (Py.split sep s) = s.
Proof.
  induction s as [|c s IH]; simpl; [done|].
  pose proof (split_not_nil sep s) as Hnil.
  destruct (Ascii.eqb c sep) eqn:Hc.
  - apply Ascii.eqb_eq in Hc as ->.
    destruct (Py.split sep s) as [|p ps]; [done|].
    rewrite <-IH. reflexivity.
  - destruct (Py.split sep s) as [|p ps]; [done|].
    rewrite <-IH. by destruct ps.
Qed.

(** No piece contains the separator. *)
Lemma split_no_sep sep s p :
  p ∈ Py.split sep s → Py.contains sep p = false.
Proof.
  revert p. induction s as [|c s IH]; simpl; intros p Hp.
  - apply list_elem_of_singleton in Hp as ->. done.
  - destruct (Ascii.eqb c sep) eqn:Hc.
    + apply elem_of_cons in Hp as [->|Hp]; [done|]. by apply IH.
    + destruct (Py.split sep s) as [|q qs].
      * apply list_elem_of_singleton in Hp as ->. simpl. by rewrite Hc.
      * apply elem_of_cons in Hp as [->|Hp].
        -- simpl. rewrite Hc. apply IH. by left.
        -- apply IH. by right.
Qed.

(** A string without the separator is its own single piece. *)
Lemma split_no_sep_id sep s :
  Py.contains sep s = false → Py.split sep s = [s].
Proof.
  induction s as [|c s IH]; simpl; [done|].
  intros [Hc Hs]%orb_false_iff. rewrite Hc, IH; done.
Qed.

Lemma app_String c s t : String c s +:+ t = String c (s +:+ t).
Proof. reflexivity. Qed.

Lemma lstrip_decompose s :
  ∃ pre, s = pre +:+ Py.lstrip s ∧ Py.all_space pre = true.
Proof.
  induction s as [|c s (pre & Hs & Hpre)]; simpl.
  - by exists "".
  - destruct (Py.isspace c) eqn:Hc.
    + exists (String c pre). simpl. rewrite Hc, Hpre, app_String.
      by rewrite <-Hs.
    + by exists "".
Qed.

Lemma lstrip_starts s : Py.starts_space (Py.lstrip s) = false.
Proof.
  induction s as [|c s IH]; simpl; [done|].
  destruct (Py.isspace c) eqn:Hc; [done|]. simpl. done.
Qed.

Lemma rstrip_decompose s :
  ∃ post, s = Py.rstrip s +:+ post ∧ Py.all_space post = true.
Proof.
  induction s as [|c s (post & Hs & Hpost)]; simpl.
  - by exists "".
  - destruct (Py.rstrip s) as [|d r] eqn:Hr.
    + change ("" +:+ post) with post in Hs. subst s.
      destruct (Py.isspace c) eqn:Hc.
      * exists (String c post). simpl. by rewrite Hc, Hpost.
      * by exists post.
    + exists post. split; [|done]. rewrite app_String. by rewrite <-Hs.
Qed.

Lemma rstrip_ends s : Py.ends_space (Py.rstrip s) = false.
Proof.
  induction s as [|c s IH]; simpl; [done|].
  destruct (Py.rstrip s) as [|d r] eqn:Hr.
  - destruct (Py.isspace c) eqn:Hc; simpl; done.
  - simpl in *. done.
Qed.

Lemma rstrip_starts s :
  Py.starts_space s = false → Py.starts_space (Py.rstrip s) = false.
Proof.
  destruct s as [|c s]; simpl; [done|]. intros Hc.
  destruct (Py.rstrip s); [by rewrite Hc|done].
Qed.

(** [strip] removes a run of whitespace at each end, and nothing else. *)
Lemma strip_decompose s :
  ∃ pre post, s = pre +:+ Py.strip s +:+ post
    ∧ Py.all_space pre = true ∧ Py.all_space post = true.
Proof.
  destruct (lstrip_decompose s) as (pre & Hs & Hpre).
  destruct (rstrip_decompose (Py.lstrip s)) as (post & Hl & Hpost).
  exists pre, post. unfold Py.strip. by rewrite <-Hl.
Qed.

Lemma strip_trimmed s :
  Py.starts_space (Py.strip s) = false ∧ Py.ends_space (Py.strip s) = false.
Proof.
  split; [apply rstrip_starts, lstrip_starts | apply rstrip_ends].
Qed.

(** A string with no whitespace at either end is left as it is. *)
Lemma rstrip_id s : Py.ends_space s = false → Py.rstrip s = s.
Proof.
  induction s as [|c s IH]; simpl; [done|].
  destruct s as [|d s]; [by intros ->|].
  intros Hs. rewrite (IH Hs). done.
Qed.

Lemma strip_id s :
  Py.starts_space s = false → Py.ends_space s = false → Py.strip s = s.
Proof.
  intros Hs He. unfold Py.strip.
  assert (Py.lstrip s = s) as ->; [|by apply rstrip_id].
  destruct s as [|c s]; simpl in *; [done|by rewrite Hs].
Qed.

Lemma lower_char_idemp c : Py.lower_char (Py.lower_char c) = Py.lower_char c.
Proof. by destruct c as [[] [] [] [] [] [] [] []]. Qed.

Lemma lower_idemp s : Py.lower (Py.lower s) = Py.lower s.
Proof. induction s; simpl; [done|]. by rewrite lower_char_idemp, IHs. Qed.

Lemma char_eq_nocase_lower a b :
  Py.char_eq_nocase a b = true → Py.lower_char a = Py.lower_char b.
Proof.
  unfold Py.char_eq_nocase.
  intros [[Hab|[Ha Hab]%andb_true_iff]%orb_true_iff
         |[Hb Hab]%andb_true_iff]%orb_true_iff;
    apply Ascii.eqb_eq in Hab; subst.
  - done.
  - revert Ha. by destruct a as [[] [] [] [] [] [] [] []].
  - revert Hb. by destruct b as [[] [] [] [] [] [] [] []].
Qed.

(** Case variants have the same lower-case form. *)
Lemma case_variant_lower s t :
  Py.case_variant s t = true → Py.lower s = Py.lower t.
Proof.
  revert t. induction s as [|a s IH]; intros [|b t]; simpl; try done.
  intros [Hab Hst]%andb_true_iff.
  by rewrite (char_eq_nocase_lower _ _ Hab), (IH _ Hst).
Qed.

Lemma lower_char_eq_nocase a b :
  Py.lower_char a = Py.lower_char b → Py.char_eq_nocase a b = true.
Proof.
  unfold Py.lower_char, Py.char_eq_nocase.
  destruct (Py.isupper a) eqn:Ha, (Py.isupper b) eqn:Hb; simpl; intros Hab.
  - assert (a = b) as ->; [|by rewrite Ascii.eqb_refl].
    unfold Py.isupper in Ha, Hb.
    apply andb_true_iff in Ha as [_ Ha%N.leb_le].
    apply andb_true_iff in Hb as [_ Hb%N.leb_le].
    apply (f_equal N_of_ascii) in Hab.
    rewrite !N_ascii_embedding in Hab by lia.
    rewrite <-(ascii_N_embedding a), <-(ascii_N_embedding b).
    f_equal. lia.
  - rewrite Hab, Ascii.eqb_refl. by rewrite orb_true_r.
  - rewrite <-Hab, Ascii.eqb_refl. by rewrite orb_true_r.
  - rewrite Hab, Ascii.eqb_refl. done.
Qed.

(** Conversely, names with the same lower-case form are case variants. *)
Lemma lower_case_variant s t :
  Py.lower s = Py.lower t → Py.case_variant s t = true.
Proof.
  revert t. induction s as [|a s IH]; intros [|b t]; simpl; try done.
  intros [= Hab Hst]. by rewrite (lower_char_eq_nocase _ _ Hab), (IH _ Hst).
Qed.

Lemma case_variant_refl s : Py.case_variant s s = true.
Proof.
  induction s as [|a s IH]; simpl; [done|].
  rewrite IH. unfold Py.char_eq_nocase. by rewrite Ascii.eqb_refl.
Qed.

(** A name is a case variant of its lower-case form. *)
Lemma case_variant_of_lower s : Py.case_variant s (Py.lower s) = true.
Proof.
  induction s as [|a s IH]; simpl; [done|].
  rewrite IH, andb_true_r. clear.
  by destruct a as [[] [] [] [] [] [] [] []].
Qed.
End PyFacts.

(** ** The strategies *)

Section Strategies.
Context (B : Backend).
Implicit Types (self : Partitioner) (refs : gset string).
Implicit Types (node path : string) (sensor : SensorTypeDB).

Local Abbreviation catalog := (SensorType_query_enabled B).
Local Abbreviation required := (Partitioners.get_required_sensor_refs B).
Local Abbreviation sensors_of := (Partitioners.get_sensors B).

(** The loop appends to what it has collected so far exactly the
    entries that pass the membership test, in the order of the scan. *)
Lemma partition_loop refs (l acc : list SensorTypeDB) :
  fold_left (Partitioners.partition_step refs) l acc
  = acc ++ filter (λ sensor, ref (get_reference sensor) ∈ refs) l.
Proof.
  revert acc. induction l as [|sensor l IH]; intros acc; simpl.
  - by rewrite app_nil_r.
  - rewrite IH, filter_cons. unfold Partitioners.partition_step.
    case_bool_decide as Hin.
    + rewrite decide_True by done. by rewrite <-app_assoc.
    + by rewrite decide_False by done.
Qed.

Lemma get_sensors_all self :
  required self = Ok None → sensors_of self = Ok catalog.
Proof. unfold Partitioners.get_sensors. by intros ->. Qed.

Lemma get_sensors_some self refs :
  required self = Ok (Some refs) →
  sensors_of self
  = Ok (filter (λ sensor, ref (get_reference sensor) ∈ refs) catalog).
Proof.
  unfold Partitioners.get_sensors. intros ->. simpl.
  by rewrite partition_loop.
Qed.

Lemma get_sensors_raise self e :
  required self = Raise e → sensors_of self = Raise e.
Proof. unfold Partitioners.get_sensors. by intros ->. Qed.

(** An empty required set selects nothing. *)
Lemma get_sensors_empty self :
  required self = Ok (Some ∅) → sensors_of self = Ok [].
Proof.
  intros Hreq. rewrite (get_sensors_some _ _ Hreq). f_equal.
  induction catalog as [|sensor l IH]; [done|].
  rewrite filter_cons_False; [done|set_solver].
Qed.

(** *** Key-value strategy *)

Lemma kv_required node kvp :
  KeyValuePair_get_by_name B (_get_partition_lookup_key node) = Ok (Some kvp) →
  required (KVStorePartitioner node)
  = Ok (Some (list_to_set
                (Py.strip <$> Py.split ","%char (default "" (value kvp))))).
Proof.
  intros Hkv. unfold Partitioners.get_required_sensor_refs.
  rewrite Hkv. simpl.
  by destruct (value kvp) as [[|c v]|].
Qed.

(** A [None] or empty value gives the set with the empty string as its
    one element. *)
Lemma kv_falsy_value_required node kvp :
  KeyValuePair_get_by_name B (_get_partition_lookup_key node) = Ok (Some kvp) →
  Py.truthy (value kvp) = false →
  required (KVStorePartitioner node) = Ok (Some {[ "" ]}).
Proof.
  intros Hkv Hv. rewrite (kv_required _ _ Hkv).
  assert (default "" (value kvp) = "") as ->.
  { by destruct (value kvp) as [[|c v]|]. }
  reflexivity.
Qed.

(** It is never the "all" answer, and with a catalog in which every
    reference is non-empty the node gets no sensor. *)
Lemma kv_falsy_value_sensors node kvp :
  KeyValuePair_get_by_name B (_get_partition_lookup_key node) = Ok (Some kvp) →
  Py.truthy (value kvp) = false →
  sensors_of (KVStorePartitioner node)
  = Ok (filter (λ sensor, ref (get_reference sensor) = "") catalog)
  ∧ ((∀ sensor, sensor ∈ catalog → ref (get_reference sensor) ≠ "") →
     sensors_of (KVStorePartitioner node) = Ok []).
Proof.
  intros Hkv Hv.
  pose proof (kv_falsy_value_required _ _ Hkv Hv) as Hreq.
  rewrite (get_sensors_some _ _ Hreq).
  assert (filter (λ sensor, ref (get_reference sensor) ∈ ({[ "" ]} : gset string))
            catalog
          = filter (λ sensor, ref (get_reference sensor) = "") catalog) as ->.
  { apply list_filter_iff. intros sensor. set_solver. }
  split; [done|]. intros Hne. f_equal.
  induction catalog as [|sensor l IH]; [done|].
  rewrite filter_cons_False.
  - apply IH. intros s' Hs'. apply Hne. by right.
  - apply Hne. by left.
Qed.

(** When the lookup gives no object at all, reading its [value] fails;
    when the lookup itself raises, the exception is passed on. *)
Lemma kv_no_object node :
  KeyValuePair_get_by_name B (_get_partition_lookup_key node) = Ok None →
  required (KVStorePartitioner node) = Raise AttributeError.
Proof. unfold Partitioners.get_required_sensor_refs. by intros ->. Qed.

Lemma kv_lookup_raises node e :
  KeyValuePair_get_by_name B (_get_partition_lookup_key node) = Raise e →
  required (KVStorePartitioner node) = Raise e.
Proof. unfold Partitioners.get_required_sensor_refs. by intros ->. Qed.

(** *** File strategy *)

Lemma file_required node path partition_map :
  yaml_safe_load B path = Ok partition_map →
  required (FileBasedPartitioner node path)
  = match default YNull (partition_map !! node) with
    | YNull => Raise SensorPartitionMapMissingException
    | v => Ok (Some (Set_of_yaml v))
    end.
Proof.
  intros Hload. unfold Partitioners.get_required_sensor_refs.
  rewrite Hload. simpl. by destruct (default YNull (partition_map !! node)).
Qed.

Lemma file_unreadable node path e :
  yaml_safe_load B path = Raise e →
  required (FileBasedPartitioner node path) = Raise e.
Proof. unfold Partitioners.get_required_sensor_refs. by intros ->. Qed.
End Strategies.

(** C5.  Default strategy: the required references are always the "all"
    answer, and the sensors are the enabled catalog as the query gave it,
    whatever the catalog holds (the empty catalog included). *)
Theorem default_returns_whole_catalog (B : Backend) (node : string) :
  Partitioners.get_required_sensor_refs B (DefaultPartitioner node) = Ok None
  ∧ Partitioners.get_sensors B (DefaultPartitioner node)
    = Ok (SensorType_query_enabled B).
Proof. split; [done|]. by apply get_sensors_all. Qed.

(** C3.  Whenever the required references are a set and not the "all"
    answer, the sensors returned are the catalog entries whose reference is
    in the set, in catalog order.  References of the set that no catalog
    entry carries raise nothing and add nothing: every sensor returned is
    an entry of the enabled catalog. *)
Theorem filter_by_required_set (B : Backend) (self : Partitioner)
    (refs : gset string) :
  Partitioners.get_required_sensor_refs B self = Ok (Some refs) →
  ∃ members,
    Partitioners.get_sensors B self = Ok members
    ∧ members = filter (λ sensor, ref (get_reference sensor) ∈ refs)
                  (SensorType_query_enabled B)
    ∧ members `sublist_of` SensorType_query_enabled B
    ∧ ∀ sensor, sensor ∈ members ↔
        sensor ∈ SensorType_query_enabled B ∧ ref (get_reference sensor) ∈ refs.
Proof.
  intros Hreq. eexists. split; [by apply get_sensors_some|].
  split; [done|]. split; [apply sublist_filter|].
  intros sensor. rewrite list_elem_of_filter. tauto.
Qed.

Lemma filter_by_required_set_sample :
  Partitioners.get_required_sensor_refs Sample.B
    (FileBasedPartitioner "node1" "/etc/st2/partition.yaml")
  = Ok (Some (list_to_set ["packA.s2"; "packB.gone"]))
  ∧ ∃ members,
      Partitioners.get_sensors Sample.B
        (FileBasedPartitioner "node1" "/etc/st2/partition.yaml") = Ok members
      ∧ members = filter (λ sensor, ref (get_reference sensor)
                            ∈ (list_to_set ["packA.s2"; "packB.gone"] : gset string))
                    (SensorType_query_enabled Sample.B)
      ∧ members `sublist_of` SensorType_query_enabled Sample.B
      ∧ ∀ sensor, sensor ∈ members ↔
          sensor ∈ SensorType_query_enabled Sample.B
          ∧ ref (get_reference sensor)
            ∈ (list_to_set ["packA.s2"; "packB.gone"] : gset string).
Proof.
  split; [reflexivity|].
  apply (filter_by_required_set Sample.B
           (FileBasedPartitioner "node1" "/etc/st2/partition.yaml")).
  reflexivity.
Defined.

(** C1.  Key-value strategy at a node whose directory value is the empty
    string: the required set is not empty, it has the empty string as its
    one element. *)
Theorem kv_empty_value_required_set :
  Partitioners.get_required_sensor_refs Sample.B (KVStorePartitioner "node2")
  = Ok (Some {[ "" ]})
  ∧ Partitioners.get_required_sensor_refs Sample.B (KVStorePartitioner "node2")
    ≠ Ok (Some ∅)
  ∧ size ({[ "" ]} : gset string) = 1.
Proof.
  split; [reflexivity|]. split; [|reflexivity].
  intros Heq. vm_compute in Heq. discriminate Heq.
Qed.

(** C2.  File strategy, with the document of the configured file parsed to
    a mapping: without an entry for the node the resolution raises
    [SensorPartitionMapMissingException]; with an entry that is an empty
    sequence the required set is empty and no sensor is returned. *)
Theorem file_missing_entry_vs_empty_sequence (B : Backend)
    (node path : string) (partition_map : gmap string yaml) :
  yaml_safe_load B path = Ok partition_map →
  (partition_map !! node = None →
     Partitioners.get_required_sensor_refs B (FileBasedPartitioner node path)
     = Raise SensorPartitionMapMissingException
     ∧ Partitioners.get_sensors B (FileBasedPartitioner node path)
       = Raise SensorPartitionMapMissingException)
  ∧ (partition_map !! node = Some (YSeq []) →
     Partitioners.get_required_sensor_refs B (FileBasedPartitioner node path)
     = Ok (Some ∅)
     ∧ Partitioners.get_sensors B (FileBasedPartitioner node path) = Ok []).
Proof.
  intros Hload. pose proof (file_required B node path _ Hload) as Hreq.
  split; intros Hnode; rewrite Hnode in Hreq; simpl in Hreq.
  - split; [done|]. by apply get_sensors_raise.
  - split; [done|]. by apply get_sensors_empty.
Qed.

Lemma file_missing_entry_vs_empty_sequence_sample :
  (Partitioners.get_required_sensor_refs Sample.B
     (FileBasedPartitioner "node4" "/etc/st2/partition.yaml")
   = Raise SensorPartitionMapMissingException
   ∧ Partitioners.get_sensors Sample.B
       (FileBasedPartitioner "node4" "/etc/st2/partition.yaml")
     = Raise SensorPartitionMapMissingException)
  ∧ (Partitioners.get_required_sensor_refs Sample.B
       (FileBasedPartitioner "node2" "/etc/st2/partition.yaml")
     = Ok (Some ∅)
     ∧ Partitioners.get_sensors Sample.B
         (FileBasedPartitioner "node2" "/etc/st2/partition.yaml") = Ok []).
Proof.
  split.
  - apply (file_missing_entry_vs_empty_sequence Sample.B "node4"
             "/etc/st2/partition.yaml" Sample.partition_file);
      reflexivity.
  - apply (file_missing_entry_vs_empty_sequence Sample.B "node2"
             "/etc/st2/partition.yaml" Sample.partition_file);
      reflexivity.
Defined.

(** C10.  File strategy: an entry whose value is null is handled as a
    missing entry is, the resolution raises
    [SensorPartitionMapMissingException]; the outcome is the one of the same
    document without the entry. *)
Theorem file_null_entry_is_missing (B : Backend) (node path : string)
    (partition_map : gmap string yaml) :
  yaml_safe_load B path = Ok partition_map →
  partition_map !! node = Some YNull →
  Partitioners.get_required_sensor_refs B (FileBasedPartitioner node path)
  = Raise SensorPartitionMapMissingException
  ∧ Partitioners.get_sensors B (FileBasedPartitioner node path)
    = Raise SensorPartitionMapMissingException
  ∧ default YNull (partition_map !! node)
    = default YNull (delete node partition_map !! node).
Proof.
  intros Hload Hnode. pose proof (file_required B node path _ Hload) as Hreq.
  rewrite Hnode in Hreq. simpl in Hreq.
  split; [done|]. split; [by apply get_sensors_raise|].
  by rewrite Hnode, lookup_delete_eq.
Qed.

Lemma file_null_entry_is_missing_sample :
  Partitioners.get_required_sensor_refs Sample.B
    (FileBasedPartitioner "node3" "/etc/st2/partition.yaml")
  = Raise SensorPartitionMapMissingException
  ∧ Partitioners.get_sensors Sample.B
      (FileBasedPartitioner "node3" "/etc/st2/partition.yaml")
    = Raise SensorPartitionMapMissingException
  ∧ default YNull (Sample.partition_file !! "node3")
    = default YNull (delete "node3" Sample.partition_file !! "node3").
Proof.
  apply (file_null_entry_is_missing Sample.B "node3"
           "/etc/st2/partition.yaml" Sample.partition_file);
    reflexivity.
Defined.

(** C6.  Key-value strategy: the directory is read at the node name
    followed by [.sensor_partition]; the value found there is cut at the
    commas and each piece enters the required set without its leading and
    trailing whitespace, so that the value "a, b ,c" gives the set of a, b
    and c. *)
Theorem kv_key_and_trimmed_pieces (B : Backend) (node : string)
    (kvp : KeyValuePairDB) (v : string) :
  KeyValuePair_get_by_name B (node +:+ ".sensor_partition") = Ok (Some kvp) →
  value kvp = Some v →
  _get_partition_lookup_key node = node +:+ ".sensor_partition"
  ∧ ∃ refs,
      Partitioners.get_required_sensor_refs B (KVStorePartitioner node)
      = Ok (Some refs)
      ∧ (∀ r, r ∈ refs ↔ ∃ piece, piece ∈ Py.split ","%char v ∧ r = Py.strip piece)
      ∧ (v = "a, b ,c" → refs = {[ "a"; "b"; "c" ]}).
Proof.
  intros Hkv Hv. split; [reflexivity|].
  eexists. split; [by apply kv_required|]. rewrite Hv. simpl. split.
  - intros r. rewrite elem_of_list_to_set, list_elem_of_fmap.
    split; intros (piece & ? & ?); by exists piece.
  - intros ->. reflexivity.
Qed.

Lemma kv_key_and_trimmed_pieces_sample :
  _get_partition_lookup_key "node3" = "node3.sensor_partition"
  ∧ ∃ refs,
      Partitioners.get_required_sensor_refs Sample.B (KVStorePartitioner "node3")
      = Ok (Some refs)
      ∧ (∀ r, r ∈ refs ↔
           ∃ piece, piece ∈ Py.split ","%char "a, b ,c" ∧ r = Py.strip piece)
      ∧ ("a, b ,c" = "a, b ,c" → refs = {[ "a"; "b"; "c" ]}).
Proof.
  apply (kv_key_and_trimmed_pieces Sample.B "node3"
           {| name := "node3.sensor_partition"; value := Some "a, b ,c" |}
           "a, b ,c");
    reflexivity.
Defined.

(** ** The entry point *)

Section EntryPoint.
Context (B : Backend).
Implicit Types (conf : CONF) (h : heap) (config : dict) (pname : string).

Lemma registry_lookup :
  PROVIDERS !! "default" = Some ClsDefault
  ∧ PROVIDERS !! "key-value-store" = Some ClsKVStore
  ∧ PROVIDERS !! "file" = Some ClsFileBased.
Proof. by repeat split. Qed.

Lemma registry_member pname :
  pname ∈ registry_names → is_Some (PROVIDERS !! pname).
Proof.
  unfold registry_names. rewrite !elem_of_cons, elem_of_nil.
  intros [->|[->|[->|[]]]]; by eexists.
Qed.

Lemma registry_not_member pname :
  pname ∉ registry_names → PROVIDERS !! pname = None.
Proof.
  unfold registry_names. rewrite !not_elem_of_cons. intros (H1 & H2 & H3 & _).
  unfold PROVIDERS.
  rewrite !lookup_insert_ne by done. by apply lookup_singleton_ne.
Qed.

(** With a sensor reference in the configuration nothing else is read. *)
Lemma get_sensors_single conf h r :
  sensor_ref conf = Some r → r ≠ "" →
  get_sensors B conf h = (SingleSensorProvider.get_sensors B r, h).
Proof.
  intros Hr Hne. unfold get_sensors. rewrite Hr.
  destruct r as [|c r]; [done|]. reflexivity.
Qed.

Lemma get_sensors_single' conf h :
  Py.truthy (sensor_ref conf) = true →
  get_sensors B conf h
  = (SingleSensorProvider.get_sensors B (default "" (sensor_ref conf)), h).
Proof. unfold get_sensors. by intros ->. Qed.

(** Without one: the copy is a new object, the name is popped from it,
    and the rest of the call works from the name and the other entries. *)
Lemma get_sensors_run conf h config pname :
  Py.truthy (sensor_ref conf) = false →
  h !! partition_provider conf = Some config →
  config !! "name" = Some pname →
  get_sensors B conf h
  = (dispatch B (sensor_node_name conf) pname (delete "name" config),
     <[fresh (dom h) := delete "name" config]> h).
Proof.
  intros Href Hconf Hname. unfold get_sensors. rewrite Href.
  unfold mbind, M_bind, copy_copy. rewrite Hconf.
  unfold dict_pop. rewrite lookup_insert_eq, Hname, insert_insert_eq.
  unfold dispatch.
  destruct (PROVIDERS !! Py.lower pname) as [provider|]; [|done].
  unfold dict_items. rewrite lookup_insert_eq. unfold lift.
  by destruct (instantiate provider (sensor_node_name conf)
                 (delete "name" config)).
Qed.

Lemma get_sensors_no_name conf h config :
  Py.truthy (sensor_ref conf) = false →
  h !! partition_provider conf = Some config →
  config !! "name" = None →
  get_sensors B conf h = (Raise KeyError, <[fresh (dom h) := config]> h).
Proof.
  intros Href Hconf Hname. unfold get_sensors. rewrite Href.
  unfold mbind, M_bind, copy_copy. rewrite Hconf.
  unfold dict_pop. by rewrite lookup_insert_eq, Hname.
Qed.

Lemma get_sensors_no_dict conf h :
  Py.truthy (sensor_ref conf) = false →
  h !! partition_provider conf = None →
  get_sensors B conf h = (Raise AttributeError, h).
Proof.
  intros Href Hconf. unfold get_sensors. rewrite Href.
  unfold mbind, M_bind, copy_copy. by rewrite Hconf.
Qed.

(** The heap after a call is the heap before it, with at most one new
    object. *)
Lemma get_sensors_heap conf h :
  (get_sensors B conf h).2 = h
  ∨ ∃ config', (get_sensors B conf h).2 = <[fresh (dom h) := config']> h.
Proof.
  destruct (Py.truthy (sensor_ref conf)) eqn:Href.
  { left. by rewrite get_sensors_single'. }
  destruct (h !! partition_provider conf) as [config|] eqn:Hconf.
  2: { left. by rewrite get_sensors_no_dict. }
  destruct (config !! "name") as [pname|] eqn:Hname.
  - right. eexists. by erewrite get_sensors_run.
  - right. eexists. by erewrite get_sensors_no_name.
Qed.

Lemma fresh_lookup_ne h (l : loc) config :
  h !! l = Some config → fresh (dom h) ≠ l.
Proof.
  intros Hl Heq. apply (is_fresh (dom h)). rewrite Heq.
  apply elem_of_dom. by eexists.
Qed.

(** Popping from the configuration's own dict would lose the name. *)
Lemma get_sensors_in_place_loses_name conf h config pname :
  Py.truthy (sensor_ref conf) = false →
  h !! partition_provider conf = Some config →
  config !! "name" = Some pname →
  (get_sensors_in_place B conf h).2 !! partition_provider conf
  = Some (delete "name" config)
  ∧ delete "name" config !! "name" = None.
Proof.
  intros Href Hconf Hname. split; [|apply lookup_delete_eq].
  unfold get_sensors_in_place. rewrite Href.
  unfold mbind, M_bind, dict_pop. rewrite Hconf, Hname.
  destruct (PROVIDERS !! Py.lower pname) as [provider|];
    [|by simpl; rewrite lookup_insert_eq].
  unfold dict_items. rewrite lookup_insert_eq. unfold lift.
  destruct (instantiate provider (sensor_node_name conf)
              (delete "name" config)); simpl; by rewrite lookup_insert_eq.
Qed.

(** The outcome depends on the name only through its lower-case form. *)
Lemma dispatch_lower node pname1 pname2 config :
  Py.lower pname1 = Py.lower pname2 →
  dispatch B node pname1 config = dispatch B node pname2 config.
Proof. unfold dispatch. by intros ->. Qed.
End EntryPoint.

(** C4.  With a sensor reference in the configuration the entry point is
    [SingleSensorProvider.get_sensors] on that reference and nothing else:
    the outcome is the same under any strategy configuration, valid or
    not; it is the one sensor when the catalog resolves the reference, and
    [SensorNotFoundException] exactly when it does not. *)
Theorem single_sensor_override (B : Backend) (conf : CONF) (h : heap)
    (r : string) :
  sensor_ref conf = Some r → r ≠ "" →
  get_sensors B conf h = (SingleSensorProvider.get_sensors B r, h)
  ∧ ((get_sensors B conf h).1 = Raise SensorNotFoundException
     ↔ SensorType_get_by_ref B r = None)
  ∧ (∀ sensor, SensorType_get_by_ref B r = Some sensor →
       (get_sensors B conf h).1 = Ok [sensor])
  ∧ (∀ conf' h', sensor_ref conf' = Some r →
       (get_sensors B conf' h').1 = (get_sensors B conf h).1).
Proof.
  intros Hr Hne. rewrite (get_sensors_single B conf h r Hr Hne).
  split; [done|]. unfold SingleSensorProvider.get_sensors. simpl.
  split; [|split].
  - by destruct (SensorType_get_by_ref B r).
  - by intros sensor ->.
  - intros conf' h' Hr'. by rewrite (get_sensors_single B conf' h' r Hr' Hne).
Qed.

Lemma single_sensor_override_sample :
  (get_sensors Sample.B Sample.conf_bogus Sample.h).1
  = Raise SensorPartitionerNotSupportedException
  ∧ (get_sensors Sample.B Sample.conf_single Sample.h).1 = Ok [Sample.s2].
Proof.
  split; [reflexivity|].
  pose proof (single_sensor_override Sample.B Sample.conf_single Sample.h
                "packA.s2" eq_refl) as Hsingle.
  destruct Hsingle as (_ & _ & Hfound & _); [discriminate|].
  apply Hfound. reflexivity.
Defined.

(** C7.  The strategy name is matched without regard to case: two names
    that are case variants of one another, with a lower-case form in the
    registry, select the same class, and the call has the same outcome
    with either of them in the configuration. *)
Theorem strategy_name_case_insensitive (B : Backend) (conf : CONF) (h : heap)
    (config : dict) (pname1 pname2 : string) :
  Py.lower pname1 ∈ registry_names →
  Py.case_variant pname1 pname2 = true →
  (∃ provider, PROVIDERS !! Py.lower pname1 = Some provider
               ∧ PROVIDERS !! Py.lower pname2 = Some provider)
  ∧ (get_sensors B conf
       (<[partition_provider conf := <["name" := pname1]> config]> h)).1
    = (get_sensors B conf
         (<[partition_provider conf := <["name" := pname2]> config]> h)).1.
Proof.
  intros Hreg Hvar. apply case_variant_lower in Hvar as Hlow. split.
  - destruct (registry_member _ Hreg) as [provider Hp].
    exists provider. by rewrite <-Hlow.
  - destruct (Py.truthy (sensor_ref conf)) eqn:Href.
    { by rewrite !get_sensors_single'. }
    rewrite (get_sensors_run B conf _ (<["name" := pname1]> config) pname1
               Href (lookup_insert_eq _ _ _) (lookup_insert_eq _ _ _)).
    rewrite (get_sensors_run B conf _ (<["name" := pname2]> config) pname2
               Href (lookup_insert_eq _ _ _) (lookup_insert_eq _ _ _)).
    simpl. rewrite !delete_insert_eq. by apply dispatch_lower.
Qed.

Lemma strategy_name_case_insensitive_sample :
  (∃ provider, PROVIDERS !! Py.lower "DEFAULT" = Some provider
               ∧ PROVIDERS !! Py.lower "Default" = Some provider)
  ∧ (get_sensors Sample.B Sample.conf
       (<[partition_provider Sample.conf := <["name" := "DEFAULT"]> ∅]> Sample.h)).1
    = (get_sensors Sample.B Sample.conf
         (<[partition_provider Sample.conf := <["name" := "Default"]> ∅]> Sample.h)).1.
Proof.
  apply (strategy_name_case_insensitive Sample.B Sample.conf Sample.h ∅
           "DEFAULT" "Default").
  - vm_compute. apply list_elem_of_here.
  - reflexivity.
Defined.

(** C8.  Without a sensor reference, a configured name whose lower-case
    form is not a key of the registry makes the call raise
    [SensorPartitionerNotSupportedException], whatever the catalog and the
    directories hold: no strategy runs and no sensor list is returned. *)
Theorem unknown_strategy_raises (B : Backend) (conf : CONF) (h : heap)
    (config : dict) (pname : string) :
  Py.truthy (sensor_ref conf) = false →
  h !! partition_provider conf = Some config →
  config !! "name" = Some pname →
  Py.lower pname ∉ registry_names →
  (get_sensors B conf h).1 = Raise SensorPartitionerNotSupportedException
  ∧ ∀ sensors, (get_sensors B conf h).1 ≠ Ok sensors.
Proof.
  intros Href Hconf Hname Hreg.
  rewrite (get_sensors_run B conf h config pname Href Hconf Hname). simpl.
  unfold dispatch. by rewrite (registry_not_member _ Hreg).
Qed.

Lemma unknown_strategy_raises_sample :
  (get_sensors Sample.B Sample.conf_bogus Sample.h).1
  = Raise SensorPartitionerNotSupportedException
  ∧ ∀ sensors, (get_sensors Sample.B Sample.conf_bogus Sample.h).1 ≠ Ok sensors.
Proof.
  apply (unknown_strategy_raises Sample.B Sample.conf_bogus Sample.h
           Sample.bogus_config "round-robin"); try reflexivity.
  vm_compute. intros Hin.
  repeat (apply elem_of_cons in Hin as [Hin|Hin]; [discriminate Hin|]).
  by apply elem_of_nil in Hin.
Defined.

(** C9.  A call leaves every dict object that existed before it as it
    was, the configuration's own dict with its name entry in particular:
    the name is popped from a copy, a new object that holds the other
    entries afterwards. *)
Theorem configuration_not_mutated (B : Backend) (conf : CONF) (h : heap)
    (config : dict) :
  h !! partition_provider conf = Some config →
  (get_sensors B conf h).2 !! partition_provider conf = Some config
  ∧ (∀ l d, h !! l = Some d → (get_sensors B conf h).2 !! l = Some d)
  ∧ (∀ pname, Py.truthy (sensor_ref conf) = false →
       config !! "name" = Some pname →
       (get_sensors B conf h).2 = <[fresh (dom h) := delete "name" config]> h
       ∧ (get_sensors B conf h).2 !! partition_provider conf
           ≫= (.!! "name") = Some pname).
Proof.
  intros Hconf.
  assert (∀ l d, h !! l = Some d → (get_sensors B conf h).2 !! l = Some d)
    as Hframe.
  { intros l d Hl. destruct (get_sensors_heap B conf h) as [->|[config' ->]];
      [done|].
    rewrite lookup_insert_ne; [done|]. by eapply fresh_lookup_ne. }
  split; [by apply Hframe|]. split; [done|].
  intros pname Href Hname. split.
  - by rewrite (get_sensors_run B conf h config pname).
  - by rewrite (Hframe _ _ Hconf).
Qed.

Lemma configuration_not_mutated_sample :
  (get_sensors Sample.B Sample.conf Sample.h).2 !! 1%positive
  = Some Sample.file_config
  ∧ (get_sensors_in_place Sample.B Sample.conf Sample.h).2 !! 1%positive
    = Some (delete "name" Sample.file_config).
Proof.
  split; [|reflexivity].
  destruct (configuration_not_mutated Sample.B Sample.conf Sample.h
              Sample.file_config) as [Hkept _]; [reflexivity|].
  exact Hkept.
Defined.

(** * Further properties of the strategies *)

Section StrategyFacts.
Context (B : Backend).
Implicit Types (self : Partitioner) (refs : gset string).
Implicit Types (node path : string) (sensor : SensorTypeDB).

Local Abbreviation catalog := (SensorType_query_enabled B).
Local Abbreviation required := (Partitioners.get_required_sensor_refs B).
Local Abbreviation sensors_of := (Partitioners.get_sensors B).

Lemma contains_app c (s t : string) :
  Py.contains c (s +:+ t) = Py.contains c s || Py.contains c t.
Proof.
  induction s as [|a s IH]; [done|].
  rewrite app_String. simpl. by rewrite IH, orb_assoc.
Qed.

Lemma string_length_app (s t : string) :
  String.length (s +:+ t) = String.length s + String.length t.
Proof. induction s as [|a s IH]; [done|]. rewrite app_String. simpl. lia. Qed.

Lemma strip_no_sep c (s : string) :
  Py.contains c s = false → Py.contains c (Py.strip s) = false.
Proof.
  destruct (strip_decompose s) as (pre & post & Hs & _ & _).
  intros Hc. rewrite Hs, !contains_app in Hc.
  apply orb_false_iff in Hc as [_ Hc]. by apply orb_false_iff in Hc as [Hc _].
Qed.

Lemma chars_length (s r : string) : r ∈ Py.chars s → String.length r = 1.
Proof.
  induction s as [|c s IH]; simpl; [by intros ?%elem_of_nil|].
  intros [->|Hr]%elem_of_cons; [done|by apply IH].
Qed.

(** Two tests that agree on the entries of a list select the same ones. *)
Lemma filter_agree {A} (P Q : A → Prop) `{!∀ x, Decision (P x)}
    `{!∀ x, Decision (Q x)} (l : list A) :
  (∀ x, x ∈ l → P x ↔ Q x) → filter P l = filter Q l.
Proof.
  induction l as [|x l IH]; intros HPQ; [done|].
  rewrite !filter_cons.
  rewrite IH by (intros y Hy; apply HPQ; by right).
  pose proof (HPQ x (list_elem_of_here _ _)) as Hx.
  destruct (decide (P x)) as [HP|HP], (decide (Q x)) as [HQ|HQ];
    try done; exfalso; tauto.
Qed.

(** What the key-value strategy returned came from an object of the store. *)
Lemma kv_required_inv node refs :
  required (KVStorePartitioner node) = Ok (Some refs) →
  ∃ kvp,
    KeyValuePair_get_by_name B (_get_partition_lookup_key node) = Ok (Some kvp)
    ∧ refs = list_to_set
               (Py.strip <$> Py.split ","%char (default "" (value kvp))).
Proof.
  intros Hreq.
  destruct (KeyValuePair_get_by_name B (_get_partition_lookup_key node))
    as [[kvp|]|e] eqn:Hkv.
  - exists kvp. split; [done|]. rewrite (kv_required B _ _ Hkv) in Hreq.
    congruence.
  - by rewrite (kv_no_object B _ Hkv) in Hreq.
  - by rewrite (kv_lookup_raises B _ _ Hkv) in Hreq.
Qed.

Lemma kv_required_member node refs r :
  required (KVStorePartitioner node) = Ok (Some refs) → r ∈ refs →
  Py.contains ","%char r = false
  ∧ Py.starts_space r = false ∧ Py.ends_space r = false.
Proof.
  intros (kvp & _ & ->)%kv_required_inv.
  rewrite elem_of_list_to_set, list_elem_of_fmap.
  intros (piece & -> & Hpiece). split; [|apply strip_trimmed].
  apply strip_no_sep. by eapply split_no_sep.
Qed.

Lemma sensors_member self refs members sensor :
  required self = Ok (Some refs) → sensors_of self = Ok members →
  sensor ∈ members ↔ sensor ∈ catalog ∧ ref (get_reference sensor) ∈ refs.
Proof.
  intros Hreq Hsens. rewrite (get_sensors_some B _ _ Hreq) in Hsens.
  injection Hsens as <-. rewrite list_elem_of_filter. tauto.
Qed.

Lemma sensors_filter self refs members :
  required self = Ok (Some refs) → sensors_of self = Ok members →
  members = filter (λ sensor, ref (get_reference sensor) ∈ refs) catalog.
Proof.
  intros Hreq Hsens. rewrite (get_sensors_some B _ _ Hreq) in Hsens.
  by injection Hsens as <-.
Qed.
End StrategyFacts.

(** X1.  The key-value strategy never answers "all" and never answers
    with the empty set, whatever the store holds: a split always has a
    first piece. *)
Theorem kv_never_all_never_empty (B : Backend) (node : string) :
  Partitioners.get_required_sensor_refs B (KVStorePartitioner node) ≠ Ok None
  ∧ Partitioners.get_required_sensor_refs B (KVStorePartitioner node)
    ≠ Ok (Some ∅).
Proof.
  destruct (KeyValuePair_get_by_name B (_get_partition_lookup_key node))
    as [[kvp|]|e] eqn:Hkv.
  - rewrite (kv_required B _ _ Hkv). split; [done|].
    intros Heq.
    pose proof (split_not_nil ","%char (default "" (value kvp))) as Hnil.
    destruct (Py.split ","%char (default "" (value kvp))) as [|p ps];
      [done|].
    assert (Py.strip p ∈ (∅ : gset string)) as Hin; [|set_solver].
    assert (list_to_set (Py.strip <$> p :: ps) = (∅ : gset string)) as <-
      by congruence.
    set_solver.
  - by rewrite (kv_no_object B _ Hkv).
  - by rewrite (kv_lookup_raises B _ _ Hkv).
Qed.

(** X2.  Every reference of a key-value required set is free of commas
    and of whitespace at either end; so a catalog entry whose reference
    has a comma, or a blank in front or behind, is never among the
    sensors of a key-value node. *)
Theorem kv_references_trimmed (B : Backend) (node : string)
    (refs : gset string) :
  Partitioners.get_required_sensor_refs B (KVStorePartitioner node)
  = Ok (Some refs) →
  (∀ r, r ∈ refs →
     Py.contains ","%char r = false
     ∧ Py.starts_space r = false ∧ Py.ends_space r = false)
  ∧ (∀ members sensor,
       Partitioners.get_sensors B (KVStorePartitioner node) = Ok members →
       sensor ∈ members →
       Py.contains ","%char (ref (get_reference sensor)) = false
       ∧ Py.starts_space (ref (get_reference sensor)) = false
       ∧ Py.ends_space (ref (get_reference sensor)) = false).
Proof.
  intros Hreq. split.
  - intros r. by apply (kv_required_member B node refs).
  - intros members sensor Hsens Hin.
    apply (sensors_member B _ _ _ _ Hreq Hsens) in Hin as [_ Hin].
    by apply (kv_required_member B node refs).
Qed.

Lemma kv_references_trimmed_sample :
  (∀ r, r ∈ (list_to_set ["a"; "ab"] : gset string) →
     Py.contains ","%char r = false
     ∧ Py.starts_space r = false ∧ Py.ends_space r = false)
  ∧ (∀ members sensor,
       Partitioners.get_sensors Fleet.B (KVStorePartitioner "east") = Ok members →
       sensor ∈ members →
       Py.contains ","%char (ref (get_reference sensor)) = false
       ∧ Py.starts_space (ref (get_reference sensor)) = false
       ∧ Py.ends_space (ref (get_reference sensor)) = false).
Proof.
  apply (kv_references_trimmed Fleet.B "east"). reflexivity.
Defined.

(** X3.  A key-value entry that is one reference, without comma and
    without outer whitespace, gives the set of that reference alone, and
    the node runs the catalog entries that carry it. *)
Theorem kv_single_reference (B : Backend) (node : string)
    (kvp : KeyValuePairDB) (v : string) :
  KeyValuePair_get_by_name B (_get_partition_lookup_key node) = Ok (Some kvp) →
  value kvp = Some v →
  Py.contains ","%char v = false →
  Py.starts_space v = false → Py.ends_space v = false →
  Partitioners.get_required_sensor_refs B (KVStorePartitioner node)
  = Ok (Some {[ v ]})
  ∧ Partitioners.get_sensors B (KVStorePartitioner node)
    = Ok (filter (λ sensor, ref (get_reference sensor) = v)
            (SensorType_query_enabled B)).
Proof.
  intros Hkv Hv Hcomma Hstart Hend.
  assert (Partitioners.get_required_sensor_refs B (KVStorePartitioner node)
          = Ok (Some {[ v ]})) as Hreq.
  { rewrite (kv_required B _ _ Hkv), Hv. simpl.
    rewrite (split_no_sep_id _ _ Hcomma). simpl.
    rewrite (strip_id _ Hstart Hend). do 2 f_equal.
    apply (right_id_L ∅ (∪)). }
  split; [done|]. rewrite (get_sensors_some B _ _ Hreq). f_equal.
  apply list_filter_iff. intros sensor. apply elem_of_singleton.
Qed.

Lemma kv_single_reference_sample :
  Partitioners.get_required_sensor_refs Fleet.B (KVStorePartitioner "west")
  = Ok (Some {[ "ab" ]})
  ∧ Partitioners.get_sensors Fleet.B (KVStorePartitioner "west")
    = Ok (filter (λ sensor, ref (get_reference sensor) = "ab")
            (SensorType_query_enabled Fleet.B)).
Proof.
  apply (kv_single_reference Fleet.B "west"
           {| name := "west.sensor_partition"; value := Some "ab" |} "ab");
    reflexivity.
Defined.

(** X4.  A failure of the directory is the failure of the call: when the
    key-value lookup or the reading of the partition file raises, the
    sensors of the node raise the same exception, and a lookup that gives
    no object makes the read of its value an [AttributeError].  Nothing
    falls back to all sensors or to none. *)
Theorem directory_failure_propagates (B : Backend) (node path : string)
    (e : exn) :
  (KeyValuePair_get_by_name B (_get_partition_lookup_key node) = Raise e →
     Partitioners.get_sensors B (KVStorePartitioner node) = Raise e)
  ∧ (KeyValuePair_get_by_name B (_get_partition_lookup_key node) = Ok None →
     Partitioners.get_sensors B (KVStorePartitioner node) = Raise AttributeError)
  ∧ (yaml_safe_load B path = Raise e →
     Partitioners.get_sensors B (FileBasedPartitioner node path) = Raise e).
Proof.
  split; [|split]; intros Hfail; apply get_sensors_raise.
  - by apply kv_lookup_raises.
  - by apply kv_no_object.
  - by apply file_unreadable.
Qed.

Lemma directory_failure_propagates_sample :
  Partitioners.get_sensors Fleet.B (KVStorePartitioner "north") = Raise KeyError
  ∧ Partitioners.get_sensors Sample.B (KVStorePartitioner "node4")
    = Raise AttributeError
  ∧ Partitioners.get_sensors Fleet.B (FileBasedPartitioner "west" "missing.yaml")
    = Raise IOError.
Proof.
  split; [|split].
  - apply (directory_failure_propagates Fleet.B "north" "missing.yaml" KeyError).
    reflexivity.
  - apply (directory_failure_propagates Sample.B "node4" "missing.yaml" IOError).
    reflexivity.
  - apply (directory_failure_propagates Fleet.B "west" "missing.yaml" IOError).
    reflexivity.
Defined.

(** X5.  A node entry of the partition file that is a string and not a
    sequence is taken apart into its characters: every reference of the
    required set is one character long, and so is the reference of every
    sensor the node gets. *)
Theorem file_scalar_entry_split_into_characters (B : Backend)
    (node path : string) (partition_map : gmap string yaml) (s : string) :
  yaml_safe_load B path = Ok partition_map →
  partition_map !! node = Some (YStr s) →
  ∃ refs members,
    Partitioners.get_required_sensor_refs B (FileBasedPartitioner node path)
    = Ok (Some refs)
    ∧ Partitioners.get_sensors B (FileBasedPartitioner node path) = Ok members
    ∧ (∀ r, r ∈ refs ↔ r ∈ Py.chars s)
    ∧ (∀ r, r ∈ refs → String.length r = 1)
    ∧ (∀ sensor, sensor ∈ members →
         String.length (ref (get_reference sensor)) = 1).
Proof.
  intros Hload Hnode.
  assert (Partitioners.get_required_sensor_refs B
            (FileBasedPartitioner node path)
          = Ok (Some (list_to_set (Py.chars s)))) as Hreq.
  { by rewrite (file_required B node path _ Hload), Hnode. }
  eexists _, _. split; [exact Hreq|].
  split; [by apply get_sensors_some|].
  assert (∀ r, r ∈ (list_to_set (Py.chars s) : gset string)
               → String.length r = 1) as Hlen.
  { intros r Hr. apply elem_of_list_to_set in Hr. by eapply chars_length. }
  split; [|split].
  - intros r. apply elem_of_list_to_set.
  - done.
  - intros sensor [Hin _]%list_elem_of_filter. by apply Hlen.
Qed.

Lemma file_scalar_entry_split_into_characters_sample :
  ∃ refs members,
    Partitioners.get_required_sensor_refs Fleet.B
      (FileBasedPartitioner "east" "fleet.yaml") = Ok (Some refs)
    ∧ Partitioners.get_sensors Fleet.B
        (FileBasedPartitioner "east" "fleet.yaml") = Ok members
    ∧ (∀ r, r ∈ refs ↔ r ∈ Py.chars "ab")
    ∧ (∀ r, r ∈ refs → String.length r = 1)
    ∧ (∀ sensor, sensor ∈ members →
         String.length (ref (get_reference sensor)) = 1).
Proof.
  apply (file_scalar_entry_split_into_characters Fleet.B "east" "fleet.yaml"
           Fleet.partition_file "ab"); reflexivity.
Defined.

(** X6.  The file strategy matches the references of the sequence as they
    are written, without trimming: the node gets the catalog entries whose
    reference is an element of the sequence, character for character. *)
Theorem file_references_matched_verbatim (B : Backend) (node path : string)
    (partition_map : gmap string yaml) (l : list string) :
  yaml_safe_load B path = Ok partition_map →
  partition_map !! node = Some (YSeq l) →
  Partitioners.get_sensors B (FileBasedPartitioner node path)
  = Ok (filter (λ sensor, ref (get_reference sensor) ∈ l)
          (SensorType_query_enabled B)).
Proof.
  intros Hload Hnode.
  assert (Partitioners.get_required_sensor_refs B
            (FileBasedPartitioner node path)
          = Ok (Some (list_to_set l))) as Hreq.
  { by rewrite (file_required B node path _ Hload), Hnode. }
  rewrite (get_sensors_some B _ _ Hreq). f_equal.
  apply list_filter_iff. intros sensor. apply elem_of_list_to_set.
Qed.

Lemma file_references_matched_verbatim_sample :
  Partitioners.get_sensors Fleet.B (FileBasedPartitioner "west" "fleet.yaml")
  = Ok [Fleet.padded]
  ∧ Partitioners.get_sensors Fleet.B (KVStorePartitioner "west")
    = Ok [Fleet.ab].
Proof.
  split; [|reflexivity].
  rewrite (file_references_matched_verbatim Fleet.B "west" "fleet.yaml"
             Fleet.partition_file [" ab"] eq_refl eq_refl).
  reflexivity.
Defined.

(** X7.  Two nodes never read the same key of the store: the lookup key
    determines the node name. *)
Theorem lookup_key_injective (node1 node2 : string) :
  _get_partition_lookup_key node1 = _get_partition_lookup_key node2 →
  node1 = node2.
Proof.
  unfold _get_partition_lookup_key, Py.format1.
  change ("" +:+ node1 +:+ ".sensor_partition")
    with (node1 +:+ ".sensor_partition").
  change ("" +:+ node2 +:+ ".sensor_partition")
    with (node2 +:+ ".sensor_partition").
  generalize ".sensor_partition". intros suffix.
  revert node2. induction node1 as [|c node1 IH]; intros [|d node2] Heq.
  - done.
  - apply (f_equal String.length) in Heq.
    rewrite app_String in Heq. simpl in Heq.
    rewrite !string_length_app in Heq. simpl in Heq. lia.
  - apply (f_equal String.length) in Heq.
    rewrite app_String in Heq. simpl in Heq.
    rewrite !string_length_app in Heq. simpl in Heq. lia.
  - rewrite !app_String in Heq. injection Heq as -> Heq.
    f_equal. by apply IH.
Qed.

Lemma lookup_key_injective_sample : "node1" = "node1".
Proof.
  apply (lookup_key_injective "node1" "node1"). reflexivity.
Defined.

(** ** Writing a directory value and reading it back *)

Section RoundTrip.
Implicit Types (p s : string) (pieces : list string) (sep : ascii).

Lemma split_app_sep sep p s :
  Py.contains sep p = false →
  Py.split sep (p +:+ String sep s) = p :: Py.split sep s.
Proof.
  induction p as [|c p IH]; intros Hp.
  - change ("" +:+ String sep s) with (String sep s). simpl.
    by rewrite Ascii.eqb_refl.
  - simpl in Hp. apply orb_false_iff in Hp as [Hc Hp].
    rewrite app_String. simpl. by rewrite Hc, (IH Hp).
Qed.

(** Splitting what [join] made gives the pieces back, when there is at
    least one piece and none holds the separator. *)
Lemma split_join sep pieces :
  pieces ≠ [] → Forall (λ p, Py.contains sep p = false) pieces →
  Py.split sep (Py.join sep pieces) = pieces.
Proof.
  induction pieces as [|p pieces IH]; [done|]. intros _ Hall.
  apply Forall_cons in Hall as [Hp Hall].
  destruct pieces as [|q pieces].
  - by apply split_no_sep_id.
  - change (Py.join sep (p :: q :: pieces))
      with (p +:+ String sep (Py.join sep (q :: pieces))).
    rewrite (split_app_sep _ _ _ Hp). f_equal. by apply IH.
Qed.

Lemma strip_fmap_id pieces :
  Forall (λ p, Py.starts_space p = false ∧ Py.ends_space p = false) pieces →
  Py.strip <$> pieces = pieces.
Proof.
  induction 1 as [|p pieces [Hs He] _ IH]; [done|].
  by rewrite fmap_cons, (strip_id _ Hs He), IH.
Qed.
End RoundTrip.

(** X18.  Round trip of a directory value: a non-empty list of
    references, none with a comma or with whitespace at an end, written to
    the store joined by commas, is read back as the set of these
    references, and the node runs the catalog entries that carry one of
    them. *)
Theorem kv_joined_references_read_back (B : Backend) (node : string)
    (kvp : KeyValuePairDB) (rs : list string) :
  rs ≠ [] →
  Forall (λ r, Py.contains ","%char r = false) rs →
  Forall (λ r, Py.starts_space r = false ∧ Py.ends_space r = false) rs →
  KeyValuePair_get_by_name B (_get_partition_lookup_key node) = Ok (Some kvp) →
  value kvp = Some (Py.join ","%char rs) →
  Partitioners.get_required_sensor_refs B (KVStorePartitioner node)
  = Ok (Some (list_to_set rs))
  ∧ Partitioners.get_sensors B (KVStorePartitioner node)
    = Ok (filter (λ sensor, ref (get_reference sensor) ∈ rs)
            (SensorType_query_enabled B)).
Proof.
  intros Hne Hcomma Htrim Hkv Hv.
  assert (Partitioners.get_required_sensor_refs B (KVStorePartitioner node)
          = Ok (Some (list_to_set rs))) as Hreq.
  { rewrite (kv_required B _ _ Hkv), Hv. simpl.
    by rewrite (split_join _ _ Hne Hcomma), (strip_fmap_id _ Htrim). }
  split; [done|]. rewrite (get_sensors_some B _ _ Hreq). f_equal.
  apply list_filter_iff. intros sensor. apply elem_of_list_to_set.
Qed.

Lemma kv_joined_references_read_back_sample :
  Partitioners.get_required_sensor_refs Fleet.B (KVStorePartitioner "south")
  = Ok (Some (list_to_set ["ab"; "a"; "zz"]))
  ∧ Partitioners.get_sensors Fleet.B (KVStorePartitioner "south")
    = Ok (filter (λ sensor, ref (get_reference sensor) ∈ ["ab"; "a"; "zz"])
            (SensorType_query_enabled Fleet.B)).
Proof.
  apply (kv_joined_references_read_back Fleet.B "south"
           {| name := "south.sensor_partition"; value := Some "ab,a,zz" |}
           ["ab"; "a"; "zz"]).
  - discriminate.
  - repeat constructor.
  - repeat constructor.
  - reflexivity.
  - reflexivity.
Defined.

(** * Nodes side by side *)

Section FleetFacts.
Context {A : Type}.
Implicit Types (P Q : A → Prop) (l : list A).

(** A weaker test keeps at least the same entries, in the same order. *)
Lemma filter_sublist_mono P Q `{!∀ x, Decision (P x)} `{!∀ x, Decision (Q x)}
    l :
  (∀ x, x ∈ l → P x → Q x) → filter P l `sublist_of` filter Q l.
Proof.
  induction l as [|x l IH]; intros HPQ; [done|].
  assert (filter P l `sublist_of` filter Q l) as Hl.
  { apply IH. intros y Hy. apply HPQ. by right. }
  pose proof (HPQ x (list_elem_of_here _ _)) as Hx.
  rewrite !filter_cons.
  destruct (decide (P x)) as [HP|HP], (decide (Q x)) as [HQ|HQ].
  - by apply sublist_skip.
  - tauto.
  - by apply sublist_cons.
  - done.
Qed.
End FleetFacts.

(** X8.  Two nodes whose required sets have no reference in common have
    no sensor in common. *)
Theorem disjoint_sets_disjoint_sensors (B : Backend) (self1 self2 : Partitioner)
    (refs1 refs2 : gset string) (members1 members2 : list SensorTypeDB) :
  Partitioners.get_required_sensor_refs B self1 = Ok (Some refs1) →
  Partitioners.get_required_sensor_refs B self2 = Ok (Some refs2) →
  Partitioners.get_sensors B self1 = Ok members1 →
  Partitioners.get_sensors B self2 = Ok members2 →
  refs1 ## refs2 →
  ∀ sensor, sensor ∈ members1 → sensor ∉ members2.
Proof.
  intros Hreq1 Hreq2 Hs1 Hs2 Hdisj sensor Hin1 Hin2.
  apply (sensors_member B _ _ _ _ Hreq1 Hs1) in Hin1 as [_ Hin1].
  apply (sensors_member B _ _ _ _ Hreq2 Hs2) in Hin2 as [_ Hin2].
  by apply (Hdisj (ref (get_reference sensor))).
Qed.

Lemma disjoint_sets_disjoint_sensors_sample : Sample.s1 ∉ [Sample.s2].
Proof.
  apply (disjoint_sets_disjoint_sensors Sample.B
           (KVStorePartitioner "node1")
           (FileBasedPartitioner "node1" "/etc/st2/partition.yaml")
           {[ "packA.s1" ]} (list_to_set ["packA.s2"; "packB.gone"])
           [Sample.s1] [Sample.s2]);
    try reflexivity.
  - intros r Hr1 Hr2. apply elem_of_singleton in Hr1 as ->.
    apply elem_of_list_to_set in Hr2.
    repeat (apply elem_of_cons in Hr2 as [Hr2|Hr2]; [discriminate Hr2|]).
    by apply elem_of_nil in Hr2.
  - apply list_elem_of_here.
Defined.

(** X9.  When every reference of the enabled catalog is in the required
    set of one of two nodes, every sensor of the catalog runs on one of
    them. *)
Theorem covering_sets_cover_catalog (B : Backend) (self1 self2 : Partitioner)
    (refs1 refs2 : gset string) (members1 members2 : list SensorTypeDB) :
  Partitioners.get_required_sensor_refs B self1 = Ok (Some refs1) →
  Partitioners.get_required_sensor_refs B self2 = Ok (Some refs2) →
  Partitioners.get_sensors B self1 = Ok members1 →
  Partitioners.get_sensors B self2 = Ok members2 →
  (∀ sensor, sensor ∈ SensorType_query_enabled B →
     ref (get_reference sensor) ∈ refs1 ∪ refs2) →
  ∀ sensor, sensor ∈ SensorType_query_enabled B →
    sensor ∈ members1 ∨ sensor ∈ members2.
Proof.
  intros Hreq1 Hreq2 Hs1 Hs2 Hcover sensor Hin.
  rewrite (sensors_member B _ _ _ _ Hreq1 Hs1).
  rewrite (sensors_member B _ _ _ _ Hreq2 Hs2).
  apply Hcover in Hin as Href. apply elem_of_union in Href. tauto.
Qed.

Lemma sample_catalog_covered sensor :
  sensor ∈ SensorType_query_enabled Sample.B →
  ref (get_reference sensor)
  ∈ ({[ "packA.s1" ]} : gset string) ∪ list_to_set ["packA.s2"; "packB.gone"].
Proof.
  intros Hin. apply elem_of_union.
  apply elem_of_cons in Hin as [->|Hin]; [left; by apply elem_of_singleton|].
  apply elem_of_cons in Hin as [->|Hin];
    [right; apply elem_of_list_to_set; by left|].
  by apply elem_of_nil in Hin.
Defined.

Lemma covering_sets_cover_catalog_sample :
  Sample.s2 ∈ [Sample.s1] ∨ Sample.s2 ∈ [Sample.s2].
Proof.
  apply (covering_sets_cover_catalog Sample.B
           (KVStorePartitioner "node1")
           (FileBasedPartitioner "node1" "/etc/st2/partition.yaml")
           {[ "packA.s1" ]} (list_to_set ["packA.s2"; "packB.gone"])
           [Sample.s1] [Sample.s2]);
    try reflexivity.
  - apply sample_catalog_covered.
  - apply list_elem_of_further, list_elem_of_here.
Defined.

(** X10.  Required sets that are disjoint and cover the references of the
    catalog split the catalog: the sensors of the two nodes together are
    the enabled catalog, each entry once. *)
Theorem partition_of_references_splits_catalog (B : Backend)
    (self1 self2 : Partitioner) (refs1 refs2 : gset string)
    (members1 members2 : list SensorTypeDB) :
  Partitioners.get_required_sensor_refs B self1 = Ok (Some refs1) →
  Partitioners.get_required_sensor_refs B self2 = Ok (Some refs2) →
  Partitioners.get_sensors B self1 = Ok members1 →
  Partitioners.get_sensors B self2 = Ok members2 →
  refs1 ## refs2 →
  (∀ sensor, sensor ∈ SensorType_query_enabled B →
     ref (get_reference sensor) ∈ refs1 ∪ refs2) →
  members1 ++ members2 ≡ₚ SensorType_query_enabled B
  ∧ length members1 + length members2 = length (SensorType_query_enabled B).
Proof.
  intros Hreq1 Hreq2 Hs1 Hs2 Hdisj Hcover.
  assert (members1 ++ members2 ≡ₚ SensorType_query_enabled B) as Hperm.
  { rewrite (sensors_filter B _ _ _ Hreq1 Hs1).
    rewrite (sensors_filter B _ _ _ Hreq2 Hs2).
    rewrite (filter_agree
               (λ sensor, ref (get_reference sensor) ∈ refs2)
               (λ sensor, ¬ ref (get_reference sensor) ∈ refs1)).
    - apply filter_app_complement.
    - intros sensor Hin. apply Hcover in Hin as Href.
      apply elem_of_union in Href.
      pose proof (Hdisj (ref (get_reference sensor))). tauto. }
  split; [done|]. by rewrite <-Hperm, length_app.
Qed.

Lemma partition_of_references_splits_catalog_sample :
  [Sample.s1] ++ [Sample.s2] ≡ₚ SensorType_query_enabled Sample.B
  ∧ length [Sample.s1] + length [Sample.s2]
    = length (SensorType_query_enabled Sample.B).
Proof.
  apply (partition_of_references_splits_catalog Sample.B
           (KVStorePartitioner "node1")
           (FileBasedPartitioner "node1" "/etc/st2/partition.yaml")
           {[ "packA.s1" ]} (list_to_set ["packA.s2"; "packB.gone"]));
    try reflexivity.
  - intros r Hr1 Hr2. apply elem_of_singleton in Hr1 as ->.
    apply elem_of_list_to_set in Hr2.
    repeat (apply elem_of_cons in Hr2 as [Hr2|Hr2]; [discriminate Hr2|]).
    by apply elem_of_nil in Hr2.
  - apply sample_catalog_covered.
Defined.

(** X11.  A larger required set gives at least the same sensors, in the
    same order; and the sensors of any node are taken, in order, from
    what the Default strategy returns. *)
Theorem larger_set_more_sensors (B : Backend) (self1 self2 : Partitioner)
    (refs1 refs2 : gset string) (members1 members2 : list SensorTypeDB)
    (node : string) :
  Partitioners.get_required_sensor_refs B self1 = Ok (Some refs1) →
  Partitioners.get_required_sensor_refs B self2 = Ok (Some refs2) →
  Partitioners.get_sensors B self1 = Ok members1 →
  Partitioners.get_sensors B self2 = Ok members2 →
  refs1 ⊆ refs2 →
  members1 `sublist_of` members2
  ∧ ∃ everything,
      Partitioners.get_sensors B (DefaultPartitioner node) = Ok everything
      ∧ members2 `sublist_of` everything.
Proof.
  intros Hreq1 Hreq2 Hs1 Hs2 Hsub. split.
  - rewrite (sensors_filter B _ _ _ Hreq1 Hs1).
    rewrite (sensors_filter B _ _ _ Hreq2 Hs2).
    apply filter_sublist_mono. intros sensor _. apply Hsub.
  - eexists. split; [by apply get_sensors_all|].
    rewrite (sensors_filter B _ _ _ Hreq2 Hs2). apply sublist_filter.
Qed.

Lemma larger_set_more_sensors_sample :
  [Fleet.ab] `sublist_of` [Fleet.a; Fleet.ab]
  ∧ ∃ everything,
      Partitioners.get_sensors Fleet.B (DefaultPartitioner "west")
      = Ok everything
      ∧ [Fleet.a; Fleet.ab] `sublist_of` everything.
Proof.
  apply (larger_set_more_sensors Fleet.B
           (KVStorePartitioner "west") (KVStorePartitioner "east")
           {[ "ab" ]} (list_to_set ["a"; "ab"]));
    try reflexivity.
  intros r Hr. apply elem_of_singleton in Hr as ->.
  apply elem_of_list_to_set. right. by left.
Defined.

(** X12.  Only the references that the enabled catalog carries count:
    two required sets that hold the same references of the catalog give
    the same sensors, whatever else they hold. *)
Theorem references_outside_catalog_ignored (B : Backend)
    (self1 self2 : Partitioner) (refs1 refs2 : gset string)
    (members1 members2 : list SensorTypeDB) :
  Partitioners.get_required_sensor_refs B self1 = Ok (Some refs1) →
  Partitioners.get_required_sensor_refs B self2 = Ok (Some refs2) →
  Partitioners.get_sensors B self1 = Ok members1 →
  Partitioners.get_sensors B self2 = Ok members2 →
  (∀ sensor, sensor ∈ SensorType_query_enabled B →
     ref (get_reference sensor) ∈ refs1 ↔ ref (get_reference sensor) ∈ refs2) →
  members1 = members2.
Proof.
  intros Hreq1 Hreq2 Hs1 Hs2 Hagree.
  rewrite (sensors_filter B _ _ _ Hreq1 Hs1).
  rewrite (sensors_filter B _ _ _ Hreq2 Hs2).
  by apply filter_agree.
Qed.

Lemma references_outside_catalog_ignored_sample :
  filter (λ sensor, ref (get_reference sensor)
                    ∈ (list_to_set ["packA.s2"; "packB.gone"] : gset string))
    (SensorType_query_enabled Sample.B)
  = filter (λ sensor, ref (get_reference sensor) = "packA.s2")
      (SensorType_query_enabled Sample.B).
Proof.
  apply (references_outside_catalog_ignored
           {| SensorType_query_enabled := SensorType_query_enabled Sample.B;
              SensorType_get_by_ref := SensorType_get_by_ref Sample.B;
              KeyValuePair_get_by_name := λ key,
                Ok (Some {| name := key; value := Some "packA.s2" |});
              yaml_safe_load := yaml_safe_load Sample.B |}
           (FileBasedPartitioner "node1" "/etc/st2/partition.yaml")
           (KVStorePartitioner "node1")
           (list_to_set ["packA.s2"; "packB.gone"]) {[ "packA.s2" ]});
    try reflexivity.
  intros sensor Hin. rewrite elem_of_singleton, elem_of_list_to_set.
  apply elem_of_cons in Hin as [->|Hin].
  { split; [|discriminate].
    intros Hs. repeat (apply elem_of_cons in Hs as [Hs|Hs]; [discriminate Hs|]).
    by apply elem_of_nil in Hs. }
  apply elem_of_cons in Hin as [->|Hin]; [|by apply elem_of_nil in Hin].
  split; [done|]. intros _. by left.
Defined.

(** * Further properties of the entry point *)

Section EntryPointFacts.
Context (B : Backend).
Implicit Types (conf : CONF) (h : heap) (config : dict) (pname : string).

Lemma get_sensors_outcome conf h config pname :
  Py.truthy (sensor_ref conf) = false →
  h !! partition_provider conf = Some config →
  config !! "name" = Some pname →
  (get_sensors B conf h).1
  = dispatch B (sensor_node_name conf) pname (delete "name" config).
Proof. intros Href Hconf Hname. by rewrite (get_sensors_run B conf h config pname). Qed.

Lemma dispatch_class node pname config provider :
  PROVIDERS !! Py.lower pname = Some provider →
  dispatch B node pname config
  = instantiate provider node config ≫= Partitioners.get_sensors B.
Proof. unfold dispatch. by intros ->. Qed.

(** The outcome of a call does not depend on objects that the
    configuration does not refer to. *)
Lemma get_sensors_frame conf h (l : loc) config' :
  l ≠ partition_provider conf →
  (get_sensors B conf (<[l := config']> h)).1 = (get_sensors B conf h).1.
Proof.
  intros Hl.
  destruct (Py.truthy (sensor_ref conf)) eqn:Href.
  { by rewrite !get_sensors_single'. }
  assert (<[l := config']> h !! partition_provider conf
          = h !! partition_provider conf) as Hsame
    by by apply lookup_insert_ne.
  destruct (h !! partition_provider conf) as [config|] eqn:Hconf.
  - destruct (config !! "name") as [pname|] eqn:Hname.
    + by rewrite (get_sensors_run B conf _ config pname Href Hsame Hname),
        (get_sensors_run B conf _ config pname Href Hconf Hname).
    + by rewrite (get_sensors_no_name B conf _ config Href Hsame Hname),
        (get_sensors_no_name B conf _ config Href Hconf Hname).
  - by rewrite (get_sensors_no_dict B conf _ Href Hsame),
      (get_sensors_no_dict B conf _ Href Hconf).
Qed.
End EntryPointFacts.

(** X13.  Without a sensor reference and without a [name] entry in the
    strategy configuration the call raises [KeyError], whatever the other
    entries are, and the configuration is as it was. *)
Theorem missing_name_raises_key_error (B : Backend) (conf : CONF) (h : heap)
    (config : dict) :
  Py.truthy (sensor_ref conf) = false →
  h !! partition_provider conf = Some config →
  config !! "name" = None →
  (get_sensors B conf h).1 = Raise KeyError
  ∧ (get_sensors B conf h).2 !! partition_provider conf = Some config.
Proof.
  intros Href Hconf Hname.
  rewrite (get_sensors_no_name B conf h config Href Hconf Hname). simpl.
  split; [done|]. rewrite lookup_insert_ne; [done|].
  by eapply fresh_lookup_ne.
Qed.

Lemma missing_name_raises_key_error_sample :
  (get_sensors Fleet.B (Fleet.conf_at 1) Fleet.h).1 = Raise KeyError
  ∧ (get_sensors Fleet.B (Fleet.conf_at 1) Fleet.h).2 !! 1%positive
    = Some Fleet.nameless_config.
Proof.
  apply (missing_name_raises_key_error Fleet.B (Fleet.conf_at 1) Fleet.h
           Fleet.nameless_config); reflexivity.
Defined.

(** X14.  The Default and the key-value strategy take no configuration of
    their own: any entry beside [name] makes the call raise [TypeError]. *)
Theorem extra_entry_raises_type_error (B : Backend) (conf : CONF) (h : heap)
    (config : dict) (pname key v : string) :
  Py.truthy (sensor_ref conf) = false →
  h !! partition_provider conf = Some config →
  config !! "name" = Some pname →
  Py.lower pname = DEFAULT_PARTITION_LOADER
  ∨ Py.lower pname = KVSTORE_PARTITION_LOADER →
  key ≠ "name" → config !! key = Some v →
  (get_sensors B conf h).1 = Raise TypeError.
Proof.
  intros Href Hconf Hname Hlow Hkey Hentry.
  rewrite (get_sensors_outcome B conf h config pname Href Hconf Hname).
  assert (delete "name" config ≠ ∅) as Hne.
  { intros Hempty.
    assert (delete "name" config !! key = Some v) as Hin
      by by rewrite lookup_delete_ne.
    by rewrite Hempty, lookup_empty in Hin. }
  destruct Hlow as [Hlow|Hlow].
  - rewrite (dispatch_class B _ _ _ ClsDefault) by by rewrite Hlow.
    simpl. by rewrite decide_False.
  - rewrite (dispatch_class B _ _ _ ClsKVStore) by by rewrite Hlow.
    simpl. by rewrite decide_False.
Qed.

Lemma extra_entry_raises_type_error_sample :
  (get_sensors Fleet.B (Fleet.conf_at 5) Fleet.h).1 = Raise TypeError.
Proof.
  apply (extra_entry_raises_type_error Fleet.B (Fleet.conf_at 5) Fleet.h
           Fleet.crowded_config "default" "partition_file" "fleet.yaml");
    try reflexivity.
  - left. reflexivity.
  - discriminate.
Defined.

(** X15.  The file strategy takes [partition_file] and nothing else: a
    configuration without that entry, or with an entry beside [name] and
    [partition_file], makes the call raise [TypeError]. *)
Theorem file_strategy_configuration_checked (B : Backend) (conf : CONF)
    (h : heap) (config : dict) (pname : string) :
  Py.truthy (sensor_ref conf) = false →
  h !! partition_provider conf = Some config →
  config !! "name" = Some pname →
  Py.lower pname = FILE_PARTITION_LOADER →
  (config !! "partition_file" = None →
     (get_sensors B conf h).1 = Raise TypeError)
  ∧ (∀ key v, key ≠ "name" → key ≠ "partition_file" →
       config !! key = Some v →
       (get_sensors B conf h).1 = Raise TypeError).
Proof.
  intros Href Hconf Hname Hlow.
  rewrite (get_sensors_outcome B conf h config pname Href Hconf Hname).
  rewrite (dispatch_class B _ _ _ ClsFileBased) by by rewrite Hlow.
  unfold instantiate. rewrite lookup_delete_ne by done. split.
  - by intros ->.
  - intros key v Hkey1 Hkey2 Hentry.
    destruct (config !! "partition_file") as [path|]; [|done].
    rewrite decide_False; [done|]. intros Hempty.
    assert (delete "partition_file" (delete "name" config) !! key = Some v)
      as Hin by by rewrite !lookup_delete_ne.
    by rewrite Hempty, lookup_empty in Hin.
Qed.

Lemma file_strategy_configuration_checked_sample :
  (get_sensors Fleet.B (Fleet.conf_at 6) Fleet.h).1 = Raise TypeError.
Proof.
  destruct (file_strategy_configuration_checked Fleet.B (Fleet.conf_at 6)
              Fleet.h Fleet.bare_file_config "file"
              eq_refl eq_refl eq_refl eq_refl)
    as [Hmissing _].
  apply Hmissing. reflexivity.
Defined.

(** X16.  With a configuration that fits, the entry point gives what the
    selected class gives for the configured node: the whole enabled
    catalog for the Default strategy, and for the other two the sensors of
    a key-value and of a file partitioner of that node (with the
    configured file). *)
Theorem entry_point_runs_selected_strategy (B : Backend) (conf : CONF)
    (h : heap) (config : dict) (pname : string) :
  Py.truthy (sensor_ref conf) = false →
  h !! partition_provider conf = Some config →
  config !! "name" = Some pname →
  (Py.lower pname = DEFAULT_PARTITION_LOADER → delete "name" config = ∅ →
     (get_sensors B conf h).1 = Ok (SensorType_query_enabled B))
  ∧ (Py.lower pname = KVSTORE_PARTITION_LOADER → delete "name" config = ∅ →
     (get_sensors B conf h).1
     = Partitioners.get_sensors B (KVStorePartitioner (sensor_node_name conf)))
  ∧ (∀ path, Py.lower pname = FILE_PARTITION_LOADER →
       delete "name" config = {[ "partition_file" := path ]} →
       (get_sensors B conf h).1
       = Partitioners.get_sensors B
           (FileBasedPartitioner (sensor_node_name conf) path)).
Proof.
  intros Href Hconf Hname.
  rewrite (get_sensors_outcome B conf h config pname Href Hconf Hname).
  split; [|split].
  - intros Hlow ->.
    by rewrite (dispatch_class B _ _ _ ClsDefault) by by rewrite Hlow.
  - intros Hlow ->.
    by rewrite (dispatch_class B _ _ _ ClsKVStore) by by rewrite Hlow.
  - intros path Hlow ->.
    rewrite (dispatch_class B _ _ _ ClsFileBased) by by rewrite Hlow.
    unfold instantiate. rewrite lookup_singleton_eq, delete_singleton_eq.
    by rewrite decide_True.
Qed.

Lemma entry_point_runs_selected_strategy_sample :
  (get_sensors Fleet.B (Fleet.conf_at 2) Fleet.h).1
  = Ok [Fleet.a; Fleet.ab; Fleet.padded]
  ∧ (get_sensors Fleet.B (Fleet.conf_at 3) Fleet.h).1
    = Partitioners.get_sensors Fleet.B (KVStorePartitioner "west")
  ∧ (get_sensors Fleet.B (Fleet.conf_at 4) Fleet.h).1
    = Partitioners.get_sensors Fleet.B
        (FileBasedPartitioner "west" "fleet.yaml").
Proof.
  split; [|split].
  - destruct (entry_point_runs_selected_strategy Fleet.B (Fleet.conf_at 2)
                Fleet.h Fleet.default_config "Default"
                eq_refl eq_refl eq_refl)
      as (Hdefault & _ & _).
    apply Hdefault; reflexivity.
  - destruct (entry_point_runs_selected_strategy Fleet.B (Fleet.conf_at 3)
                Fleet.h Fleet.kvstore_config "Key-Value-Store"
                eq_refl eq_refl eq_refl)
      as (_ & Hkv & _).
    apply Hkv; reflexivity.
  - destruct (entry_point_runs_selected_strategy Fleet.B (Fleet.conf_at 4)
                Fleet.h Fleet.file_config "FILE"
                eq_refl eq_refl eq_refl)
      as (_ & _ & Hfile).
    apply (Hfile "fleet.yaml"); reflexivity.
Defined.

(** X17.  A call can be repeated: after a call, a second call with the
    same configuration and the same collaborators has the outcome of the
    first, since the first left the configuration alone. *)
Theorem resolution_repeatable (B : Backend) (conf : CONF) (h : heap) :
  (get_sensors B conf (get_sensors B conf h).2).1 = (get_sensors B conf h).1.
Proof.
  destruct (Py.truthy (sensor_ref conf)) eqn:Href.
  { by rewrite !get_sensors_single'. }
  destruct (h !! partition_provider conf) as [config|] eqn:Hconf.
  - destruct (get_sensors_heap B conf h) as [->|[config' ->]]; [done|].
    apply get_sensors_frame. by eapply fresh_lookup_ne.
  - pose proof (get_sensors_no_dict B conf h Href Hconf) as Hrun.
    rewrite Hrun. simpl. by rewrite Hrun.
Qed.

(** ** Worked examples *)

Example split_ex : Py.split ","%char "a, b ,c" = ["a"; " b "; "c"].
Proof. reflexivity. Qed.

Example split_empty : Py.split ","%char "" = [""].
Proof. reflexivity. Qed.

Example split_trailing_comma : Py.split ","%char "a,b," = ["a"; "b"; ""].
Proof. reflexivity. Qed.

Example strip_ex : Py.strip "  b c  " = "b c".
Proof. reflexivity. Qed.

Example lower_ex : Py.lower "Key-Value-Store" = "key-value-store".
Proof. reflexivity. Qed.

(** The catalog holds [packA.s1] and [packA.s2], the directory value of
    the node is [packA.s1]: the node runs the first sensor only. *)
Example kv_one_sensor :
  Partitioners.get_sensors Sample.B (KVStorePartitioner "node1")
  = Ok [Sample.s1].
Proof. reflexivity. Qed.

Example kv_empty_value_no_sensor :
  Partitioners.get_sensors Sample.B (KVStorePartitioner "node2") = Ok [].
Proof. reflexivity. Qed.

Example kv_no_object_ex :
  Partitioners.get_sensors Sample.B (KVStorePartitioner "node4")
  = Raise AttributeError.
Proof. reflexivity. Qed.

(** Through the entry point, with the name written [File]: the file maps
    the node to [packA.s2] and to a reference that the catalog lacks. *)
Example entry_point_file :
  (get_sensors Sample.B Sample.conf Sample.h).1 = Ok [Sample.s2].
Proof. reflexivity. Qed.

(** A configuration entry that the constructor does not take. *)
Example entry_point_extra_keyword :
  (get_sensors Sample.B Sample.conf
     (<[1%positive := <["name" := "default"]> Sample.file_config]> Sample.h)).1
  = Raise TypeError.
Proof. reflexivity. Qed.
